(** * ENTE-TCP: entropy-enhanced TCP congestion control

    A shallow embedding of [ente_tcp_lkm.c].  The private per-connection
    structure [struct ente_tcp] becomes a record, each callback of
    [ente_tcp_ops] becomes a function on that record, and the fixed-width
    integer arithmetic of the C code is written out on [Z] with explicit
    wrap-around. *)

From Stdlib Require Import ZArith Lia Bool.
From stdpp Require Import base list.

Local Open Scope Z_scope.

(** ** Fixed-width integers *)

Module Mach.

(** Conversion to an unsigned type of [w] bits. *)
Definition wrap (w : Z) (z : Z) : Z := z mod 2 ^ w.

Definition u16 : Z -> Z := wrap 16.
Definition u32 : Z -> Z := wrap 32.
Definition u64 : Z -> Z := wrap 64.

(** Conversion to [s32]: two's complement.  Kernel code is built with
    [-fno-strict-overflow], so a signed product wraps as well. *)
Definition s32 (z : Z) : Z := (z + 2 ^ 31) mod 2 ^ 32 - 2 ^ 31.

Definition U32_MAX : Z := 2 ^ 32 - 1.

(** [__builtin_clz] on a 32-bit operand.  The compiler leaves the result
    at 0 undefined; 32 is what [lzcnt] and [clz] instructions answer. *)
Definition builtin_clz (x : Z) : Z :=
  if x <=? 0 then 32 else 31 - Z.log2 x.

(** [min_t(type, a, b)] and [max(a, b)] once both sides are converted. *)
Definition min_t (ty : Z -> Z) (a b : Z) : Z := Z.min (ty a) (ty b).
Definition max_u (a b : Z) : Z := Z.max a b.

End Mach.

Import Mach.

(** ** Configuration parameters *)

Definition ENTROPY_WINDOW_SIZE : Z := 16.
Definition ENTROPY_CALC_INTERVAL : Z := 8.
Definition HISTOGRAM_BINS : Z := 16.
Definition HIGH_ENTROPY_THRESHOLD : Z := 700.
Definition LOW_ENTROPY_THRESHOLD : Z := 400.
Definition NOISE_AGGRESSION : Z := 1500.
Definition CONGESTION_CONSERVE : Z := 500.
Definition NOISE_REDUCTION_FACTOR : Z := 3.
Definition CONGESTION_REDUCTION_FACTOR : Z := 2.

(** ** Connection state *)

(** The fields of the host's [struct tcp_sock] that the module touches. *)
Record tcp_sock := mk_tcp_sock {
  snd_cwnd : Z;
  snd_ssthresh : Z;
  srtt_us : Z
}.

(** [struct ente_tcp].  One-bit fields are booleans. *)
Record ente_tcp := mk_ente_tcp {
  min_rtt_us : Z;
  prior_cwnd : Z;
  ssthresh : Z;
  rtt_history : list Z;
  history_index : Z;
  history_count : Z;
  shannon_entropy : Z;
  packets_acked : Z;
  rtt_variance : Z;
  avg_rtt_us : Z;
  has_entropy_data : bool;
  in_slow_start : bool;
  is_noise : bool;
  is_congestion : bool;
  loss_event : bool
}.

(** [ca->rtt_history[i]] *)
Definition rtt_at (ca : ente_tcp) (i : nat) : Z := rtt_history ca !!! i.

(** ** Entropy estimator *)

(** The first loop of [calculate_entropy]: running minimum and maximum. *)
Definition min_max_step (ca : ente_tcp) (acc : Z * Z) (i : nat) : Z * Z :=
  let v := rtt_at ca i in
  let min_val := if v <? fst acc then v else fst acc in
  let max_val := if v >? snd acc then v else snd acc in
  (min_val, max_val).

(** The second loop: one sample goes into its bin. *)
Definition histogram_step (ca : ente_tcp) (min_val range : Z)
    (histogram : list Z) (i : nat) : list Z :=
  let bin := u16 (u32 (u32 (rtt_at ca i - min_val) * (HISTOGRAM_BINS - 1)) / range) in
  let bin := min_t u16 bin (HISTOGRAM_BINS - 1) in
  <[Z.to_nat bin := u32 (histogram !!! Z.to_nat bin + 1)]> histogram.

(** The third loop: one bin's contribution to the accumulator. *)
Definition entropy_step (histogram : list Z) (total : Z) (entropy : Z) (i : nat) : Z :=
  if histogram !!! i >? 0 then
    let p := u64 (histogram !!! i * 1000000) / total in
    let log_p :=
      if p >? 0 then u32 (u32 (32 - builtin_clz (u32 (p / 1000))) * 1000) else 0 in
    u64 (entropy + u64 (p * log_p) / 1000000)
  else entropy.

Definition calculate_entropy (ca : ente_tcp) : Z :=
  if history_count ca <? 8 then 0
  else
    let count := min_t u32 (history_count ca) ENTROPY_WINDOW_SIZE in
    let idx := seq 0 (Z.to_nat count) in
    let mm := fold_left (min_max_step ca) idx (rtt_at ca 0, rtt_at ca 0) in
    let min_val := fst mm in
    let max_val := snd mm in
    let range := u16 (max_val - min_val) in
    if range =? 0 then 0
    else
      let histogram :=
        fold_left (histogram_step ca min_val range) idx
                  (replicate (Z.to_nat HISTOGRAM_BINS) 0) in
      let total := count in
      let entropy :=
        fold_left (entropy_step histogram total)
                  (seq 0 (Z.to_nat HISTOGRAM_BINS)) 0 in
      u32 (min_t u64 (entropy / 4) 1000).

(** ** RTT statistics *)

Definition sum_step (ca : ente_tcp) (sum : Z) (i : nat) : Z :=
  u32 (sum + rtt_at ca i).

Definition variance_step (ca : ente_tcp) (avg : Z) (variance_sum : Z) (i : nat) : Z :=
  let diff := s32 (s32 (rtt_at ca i) - s32 avg) in
  u64 (variance_sum + u64 (s32 (diff * diff))).

Definition set_stats (ca : ente_tcp) (avg_us variance : Z) : ente_tcp :=
  mk_ente_tcp (min_rtt_us ca) (prior_cwnd ca) (ssthresh ca) (rtt_history ca)
    (history_index ca) (history_count ca) (shannon_entropy ca) (packets_acked ca)
    variance avg_us
    (has_entropy_data ca) (in_slow_start ca) (is_noise ca) (is_congestion ca)
    (loss_event ca).

Definition update_rtt_stats (ca : ente_tcp) : ente_tcp :=
  if history_count ca <? 4 then ca
  else
    let count := min_t u32 (history_count ca) ENTROPY_WINDOW_SIZE in
    let idx := seq 0 (Z.to_nat count) in
    let sum := fold_left (sum_step ca) idx 0 in
    let avg := sum / count in
    let avg_us := u32 (avg * 1000) in
    let variance_sum := fold_left (variance_step ca avg) idx 0 in
    set_stats ca avg_us (u32 (variance_sum / count)).

(** ** Field updates *)

Definition set_min_rtt_us (v : Z) (ca : ente_tcp) : ente_tcp :=
  mk_ente_tcp v (prior_cwnd ca) (ssthresh ca) (rtt_history ca)
    (history_index ca) (history_count ca) (shannon_entropy ca) (packets_acked ca)
    (rtt_variance ca) (avg_rtt_us ca)
    (has_entropy_data ca) (in_slow_start ca) (is_noise ca) (is_congestion ca)
    (loss_event ca).

Definition set_prior_cwnd (v : Z) (ca : ente_tcp) : ente_tcp :=
  mk_ente_tcp (min_rtt_us ca) v (ssthresh ca) (rtt_history ca)
    (history_index ca) (history_count ca) (shannon_entropy ca) (packets_acked ca)
    (rtt_variance ca) (avg_rtt_us ca)
    (has_entropy_data ca) (in_slow_start ca) (is_noise ca) (is_congestion ca)
    (loss_event ca).

Definition set_ssthresh (v : Z) (ca : ente_tcp) : ente_tcp :=
  mk_ente_tcp (min_rtt_us ca) (prior_cwnd ca) v (rtt_history ca)
    (history_index ca) (history_count ca) (shannon_entropy ca) (packets_acked ca)
    (rtt_variance ca) (avg_rtt_us ca)
    (has_entropy_data ca) (in_slow_start ca) (is_noise ca) (is_congestion ca)
    (loss_event ca).

Definition set_rtt_history (v : list Z) (ca : ente_tcp) : ente_tcp :=
  mk_ente_tcp (min_rtt_us ca) (prior_cwnd ca) (ssthresh ca) v
    (history_index ca) (history_count ca) (shannon_entropy ca) (packets_acked ca)
    (rtt_variance ca) (avg_rtt_us ca)
    (has_entropy_data ca) (in_slow_start ca) (is_noise ca) (is_congestion ca)
    (loss_event ca).

Definition set_history_index (v : Z) (ca : ente_tcp) : ente_tcp :=
  mk_ente_tcp (min_rtt_us ca) (prior_cwnd ca) (ssthresh ca) (rtt_history ca)
    v (history_count ca) (shannon_entropy ca) (packets_acked ca)
    (rtt_variance ca) (avg_rtt_us ca)
    (has_entropy_data ca) (in_slow_start ca) (is_noise ca) (is_congestion ca)
    (loss_event ca).

Definition set_history_count (v : Z) (ca : ente_tcp) : ente_tcp :=
  mk_ente_tcp (min_rtt_us ca) (prior_cwnd ca) (ssthresh ca) (rtt_history ca)
    (history_index ca) v (shannon_entropy ca) (packets_acked ca)
    (rtt_variance ca) (avg_rtt_us ca)
    (has_entropy_data ca) (in_slow_start ca) (is_noise ca) (is_congestion ca)
    (loss_event ca).

Definition set_shannon_entropy (v : Z) (ca : ente_tcp) : ente_tcp :=
  mk_ente_tcp (min_rtt_us ca) (prior_cwnd ca) (ssthresh ca) (rtt_history ca)
    (history_index ca) (history_count ca) v (packets_acked ca)
    (rtt_variance ca) (avg_rtt_us ca)
    (has_entropy_data ca) (in_slow_start ca) (is_noise ca) (is_congestion ca)
    (loss_event ca).

Definition set_packets_acked (v : Z) (ca : ente_tcp) : ente_tcp :=
  mk_ente_tcp (min_rtt_us ca) (prior_cwnd ca) (ssthresh ca) (rtt_history ca)
    (history_index ca) (history_count ca) (shannon_entropy ca) v
    (rtt_variance ca) (avg_rtt_us ca)
    (has_entropy_data ca) (in_slow_start ca) (is_noise ca) (is_congestion ca)
    (loss_event ca).

Definition set_has_entropy_data (v : bool) (ca : ente_tcp) : ente_tcp :=
  mk_ente_tcp (min_rtt_us ca) (prior_cwnd ca) (ssthresh ca) (rtt_history ca)
    (history_index ca) (history_count ca) (shannon_entropy ca) (packets_acked ca)
    (rtt_variance ca) (avg_rtt_us ca)
    v (in_slow_start ca) (is_noise ca) (is_congestion ca) (loss_event ca).

Definition set_in_slow_start (v : bool) (ca : ente_tcp) : ente_tcp :=
  mk_ente_tcp (min_rtt_us ca) (prior_cwnd ca) (ssthresh ca) (rtt_history ca)
    (history_index ca) (history_count ca) (shannon_entropy ca) (packets_acked ca)
    (rtt_variance ca) (avg_rtt_us ca)
    (has_entropy_data ca) v (is_noise ca) (is_congestion ca) (loss_event ca).

Definition set_is_noise (v : bool) (ca : ente_tcp) : ente_tcp :=
  mk_ente_tcp (min_rtt_us ca) (prior_cwnd ca) (ssthresh ca) (rtt_history ca)
    (history_index ca) (history_count ca) (shannon_entropy ca) (packets_acked ca)
    (rtt_variance ca) (avg_rtt_us ca)
    (has_entropy_data ca) (in_slow_start ca) v (is_congestion ca) (loss_event ca).

Definition set_is_congestion (v : bool) (ca : ente_tcp) : ente_tcp :=
  mk_ente_tcp (min_rtt_us ca) (prior_cwnd ca) (ssthresh ca) (rtt_history ca)
    (history_index ca) (history_count ca) (shannon_entropy ca) (packets_acked ca)
    (rtt_variance ca) (avg_rtt_us ca)
    (has_entropy_data ca) (in_slow_start ca) (is_noise ca) v (loss_event ca).

Definition set_loss_event (v : bool) (ca : ente_tcp) : ente_tcp :=
  mk_ente_tcp (min_rtt_us ca) (prior_cwnd ca) (ssthresh ca) (rtt_history ca)
    (history_index ca) (history_count ca) (shannon_entropy ca) (packets_acked ca)
    (rtt_variance ca) (avg_rtt_us ca)
    (has_entropy_data ca) (in_slow_start ca) (is_noise ca) (is_congestion ca) v.

Definition set_snd_cwnd (v : Z) (tp : tcp_sock) : tcp_sock :=
  mk_tcp_sock v (snd_ssthresh tp) (srtt_us tp).

Definition set_snd_ssthresh (v : Z) (tp : tcp_sock) : tcp_sock :=
  mk_tcp_sock (snd_cwnd tp) v (srtt_us tp).

(** ** Host interface *)

(** Modelled from the spec: the host's [TCP_INFINITE_SSTHRESH] macro, which
    [ente_tcp_init] stores as the "infinite (no limit)" threshold; the host
    headers define it as [0x7fffffff]. *)
Definition TCP_INFINITE_SSTHRESH : Z := 2147483647.

(** Modelled from the spec: the host's [enum tcp_ca_event].  The handler
    distinguishes loss, restart after idle, and everything else. *)
Inductive tcp_ca_event :=
| CA_EVENT_TX_START
| CA_EVENT_CWND_RESTART
| CA_EVENT_COMPLETE_CWR
| CA_EVENT_LOSS
| CA_EVENT_ECN_NO_CE
| CA_EVENT_ECN_IS_CE.

(** Modelled from the spec: the host's [enum tcp_ca_state]; [set_state]
    only tells [TCP_CA_Loss] from the rest. *)
Inductive tcp_ca_state :=
| TCP_CA_Open
| TCP_CA_Disorder
| TCP_CA_CWR
| TCP_CA_Recovery
| TCP_CA_Loss.

(** What [ente_tcp_cong_avoid] ends with: the growth primitive of the host
    it calls, with the arguments it passes.  [no_call] is the early return
    on [acked == 0]; [divide_error] is the trap of an unsigned division by
    zero. *)
Inductive host_call :=
| no_call
| tcp_slow_start (acked : Z)
| tcp_cong_avoid_ai (w : Z) (acked : Z)
| tcp_reno_cong_avoid (ack : Z) (acked : Z)
| divide_error.

(** ** Callbacks *)

Definition ente_tcp_init (tp : tcp_sock) : tcp_sock * ente_tcp :=
  let ca :=
    {| min_rtt_us := U32_MAX;
       ssthresh := snd_ssthresh tp;
       prior_cwnd := snd_cwnd tp;
       history_index := 0;
       history_count := 0;
       shannon_entropy := 0;
       packets_acked := 0;
       rtt_variance := 0;
       avg_rtt_us := 0;
       has_entropy_data := false;
       in_slow_start := true;
       is_noise := false;
       is_congestion := false;
       loss_event := false;
       rtt_history := replicate (Z.to_nat ENTROPY_WINDOW_SIZE) 0 |} in
  (set_snd_ssthresh TCP_INFINITE_SSTHRESH tp, ca).

(** The block guarded by [packets_acked >= ENTROPY_CALC_INTERVAL]. *)
Definition recompute (ca : ente_tcp) : ente_tcp :=
  let ca := set_shannon_entropy (u16 (calculate_entropy ca)) ca in
  let ca := update_rtt_stats ca in
  let ca := set_packets_acked 0 ca in
  let ca := set_has_entropy_data true ca in
  let ca :=
    if shannon_entropy ca >? HIGH_ENTROPY_THRESHOLD then
      set_is_congestion false (set_is_noise true ca)
    else if shannon_entropy ca <? LOW_ENTROPY_THRESHOLD then
      set_is_congestion true (set_is_noise false ca)
    else
      set_is_congestion false (set_is_noise false ca) in
  set_loss_event false ca.

(** [max(1U, (acked * factor) / (tp->snd_cwnd * 1000))] in [u32]. *)
Definition scaled_delta (acked factor cwnd : Z) : option Z :=
  let den := u32 (cwnd * 1000) in
  if den =? 0 then None
  else Some (max_u 1 (u32 (acked * factor) / den)).

Definition ai_call (cwnd : Z) (delta : option Z) : host_call :=
  match delta with
  | Some d => tcp_cong_avoid_ai cwnd d
  | None => divide_error
  end.

Definition ente_tcp_cong_avoid (tp : tcp_sock) (ca : ente_tcp) (ack acked : Z)
    : ente_tcp * host_call :=
  if acked =? 0 then (ca, no_call)
  else
    let ca := set_packets_acked (u16 (packets_acked ca + acked)) ca in
    let rtt_us := Z.shiftr (srtt_us tp) 3 in
    let rtt_us := if rtt_us =? 0 then 1 else rtt_us in
    let ca := if rtt_us <? min_rtt_us ca then set_min_rtt_us rtt_us ca else ca in
    let rtt_ms := min_t u32 (rtt_us / 1000) 65535 in
    let rtt_ms := if rtt_ms =? 0 then 1 else rtt_ms in
    let ca :=
      set_rtt_history (<[Z.to_nat (history_index ca) := u16 rtt_ms]> (rtt_history ca)) ca in
    let ca := set_history_index (u16 ((history_index ca + 1) mod ENTROPY_WINDOW_SIZE)) ca in
    let ca :=
      if history_count ca <? ENTROPY_WINDOW_SIZE
      then set_history_count (u16 (history_count ca + 1)) ca else ca in
    let ca := if packets_acked ca >=? ENTROPY_CALC_INTERVAL then recompute ca else ca in
    let ca := set_in_slow_start (snd_cwnd tp <? ssthresh ca) ca in
    if in_slow_start ca then
      if has_entropy_data ca && is_congestion ca then
        (ca, tcp_slow_start (acked / 2))
      else if has_entropy_data ca && is_noise ca then
        (ca, tcp_slow_start acked)
      else
        (ca, tcp_slow_start acked)
    else
      if has_entropy_data ca && is_congestion ca then
        (ca, ai_call (snd_cwnd tp) (scaled_delta acked CONGESTION_CONSERVE (snd_cwnd tp)))
      else if has_entropy_data ca && is_noise ca then
        (ca, ai_call (snd_cwnd tp) (scaled_delta acked NOISE_AGGRESSION (snd_cwnd tp)))
      else
        (ca, tcp_reno_cong_avoid ack acked).

Definition ente_tcp_ssthresh (tp : tcp_sock) (ca : ente_tcp) : ente_tcp * Z :=
  let ca := set_loss_event true ca in
  let reduction_factor :=
    if has_entropy_data ca then
      if is_noise ca then NOISE_REDUCTION_FACTOR
      else if is_congestion ca then CONGESTION_REDUCTION_FACTOR
      else CONGESTION_REDUCTION_FACTOR
    else CONGESTION_REDUCTION_FACTOR in
  let ca := set_ssthresh (max_u (snd_cwnd tp / reduction_factor) 2) ca in
  let ca := set_prior_cwnd (snd_cwnd tp) ca in
  (ca, ssthresh ca).

Definition ente_tcp_undo_cwnd (tp : tcp_sock) (ca : ente_tcp) : tcp_sock * ente_tcp * Z :=
  let tp := set_snd_cwnd (max_u (snd_cwnd tp) (prior_cwnd ca)) tp in
  let ca := set_in_slow_start (snd_cwnd tp <? ssthresh ca) ca in
  (tp, ca, max_u (snd_cwnd tp) (prior_cwnd ca)).

Definition ente_tcp_cwnd_event (ca : ente_tcp) (ev : tcp_ca_event) : ente_tcp :=
  match ev with
  | CA_EVENT_LOSS => set_loss_event true ca
  | CA_EVENT_CWND_RESTART => set_has_entropy_data false (set_history_count 0 ca)
  | _ => ca
  end.

Definition ente_tcp_set_state (ca : ente_tcp) (new_state : tcp_ca_state) : ente_tcp :=
  match new_state with
  | TCP_CA_Loss => set_loss_event true ca
  | _ => ca
  end.

(** Modelled from the spec: the host's [INET_DIAG_VEGASINFO] attribute
    number, the "diagnostics-extension flag" that [get_info] tests. *)
Definition INET_DIAG_VEGASINFO : Z := 3.

(** The host's [struct tcpvegas_info], which the module reuses for its
    own metrics. *)
Record tcpvegas_info := mk_tcpvegas_info {
  tcpv_enabled : Z;
  tcpv_rttcnt : Z;
  tcpv_rtt : Z;
  tcpv_minrtt : Z
}.

(** [ente_tcp_get_info]: the snapshot, or nothing when the extension bit is
    not requested.  The state is only read. *)
Definition ente_tcp_get_info (ca : ente_tcp) (ext : Z) : option tcpvegas_info :=
  if Z.land ext (Z.shiftl 1 (INET_DIAG_VEGASINFO - 1)) =? 0 then None
  else
    Some {| tcpv_enabled := 1;
            tcpv_rttcnt := history_count ca;
            tcpv_rtt := avg_rtt_us ca / 1000;
            tcpv_minrtt := shannon_entropy ca |}.

(** ** Classification *)

(** The verdict that the three flags [has_entropy_data], [is_noise] and
    [is_congestion] encode. *)
Inductive net_class := NoData | Noise | Congestion | Neutral.

Definition classification (ca : ente_tcp) : net_class :=
  if has_entropy_data ca then
    if is_noise ca then Noise
    else if is_congestion ca then Congestion
    else Neutral
  else NoData.

(** The verdict that a score stands for, by the two thresholds. *)
Definition verdict (score : Z) : net_class :=
  if score >? HIGH_ENTROPY_THRESHOLD then Noise
  else if score <? LOW_ENTROPY_THRESHOLD then Congestion
  else Neutral.

(** The two verdict flags are never set together. *)
Definition flags_exclusive (ca : ente_tcp) : Prop :=
  is_noise ca && is_congestion ca = false.

(** The ring buffer is in shape: 16 cells, the write index inside them,
    the sample count saturated at 16. *)
Definition buffer_ok (ca : ente_tcp) : Prop :=
  length (rtt_history ca) = Z.to_nat ENTROPY_WINDOW_SIZE /\
  0 <= history_index ca < ENTROPY_WINDOW_SIZE /\
  0 <= history_count ca <= ENTROPY_WINDOW_SIZE.

(** The stored score is a per-mille value. *)
Definition score_in_range (ca : ente_tcp) : Prop := 0 <= shannon_entropy ca <= 1000.

(** ** The connection as a transition system *)

(** The host drives the module through its callbacks; each event carries
    the socket fields as the host holds them at that moment. *)
Inductive event :=
| ev_ssthresh (tp : tcp_sock)
| ev_cong_avoid (tp : tcp_sock) (ack acked : Z)
| ev_undo_cwnd (tp : tcp_sock)
| ev_cwnd_event (ev : tcp_ca_event)
| ev_get_info (ext : Z)
| ev_set_state (new_state : tcp_ca_state).

(** One callback; a divide error ends the run. *)
Definition step (ca : ente_tcp) (e : event) : option ente_tcp :=
  match e with
  | ev_ssthresh tp => Some (fst (ente_tcp_ssthresh tp ca))
  | ev_cong_avoid tp ack acked =>
      match ente_tcp_cong_avoid tp ca ack acked with
      | (_, divide_error) => None
      | (ca', _) => Some ca'
      end
  | ev_undo_cwnd tp => Some (snd (fst (ente_tcp_undo_cwnd tp ca)))
  | ev_cwnd_event ev => Some (ente_tcp_cwnd_event ca ev)
  | ev_get_info _ => Some ca
  | ev_set_state st => Some (ente_tcp_set_state ca st)
  end.

Fixpoint run (ca : ente_tcp) (es : list event) : option ente_tcp :=
  match es with
  | [] => Some ca
  | e :: es' =>
      match step ca e with
      | Some ca' => run ca' es'
      | None => None
      end
  end.

(** States a connection can be in: [init], then any callbacks. *)
Inductive reachable : ente_tcp -> Prop :=
| reachable_init tp : reachable (snd (ente_tcp_init tp))
| reachable_step ca e ca' : reachable ca -> step ca e = Some ca' -> reachable ca'.

(** An acknowledgment event as the host delivers it. *)
Definition ack_event (a : tcp_sock * Z * Z) : event :=
  ev_cong_avoid (fst (fst a)) (snd (fst a)) (snd a).

(** ** The acknowledgment handler in three stages

    [ente_tcp_cong_avoid] does three things in a row: it records the RTT
    sample, it recomputes the verdict when the interval has elapsed, and it
    picks the growth primitive.  The stages are named here so that each can
    be reasoned about on its own; [cong_avoid_stages] below shows that they
    compose to the handler. *)

Definition record_sample (tp : tcp_sock) (ca : ente_tcp) (acked : Z) : ente_tcp :=
  let ca := set_packets_acked (u16 (packets_acked ca + acked)) ca in
  let rtt_us := Z.shiftr (srtt_us tp) 3 in
  let rtt_us := if rtt_us =? 0 then 1 else rtt_us in
  let ca := if rtt_us <? min_rtt_us ca then set_min_rtt_us rtt_us ca else ca in
  let rtt_ms := min_t u32 (rtt_us / 1000) 65535 in
  let rtt_ms := if rtt_ms =? 0 then 1 else rtt_ms in
  let ca :=
    set_rtt_history (<[Z.to_nat (history_index ca) := u16 rtt_ms]> (rtt_history ca)) ca in
  let ca := set_history_index (u16 ((history_index ca + 1) mod ENTROPY_WINDOW_SIZE)) ca in
  if history_count ca <? ENTROPY_WINDOW_SIZE
  then set_history_count (u16 (history_count ca + 1)) ca else ca.

Definition periodic_recompute (ca : ente_tcp) : ente_tcp :=
  if packets_acked ca >=? ENTROPY_CALC_INTERVAL then recompute ca else ca.

Definition growth_call (tp : tcp_sock) (ca : ente_tcp) (ack acked : Z) : host_call :=
  if in_slow_start ca then
    if has_entropy_data ca && is_congestion ca then tcp_slow_start (acked / 2)
    else tcp_slow_start acked
  else
    if has_entropy_data ca && is_congestion ca then
      ai_call (snd_cwnd tp) (scaled_delta acked CONGESTION_CONSERVE (snd_cwnd tp))
    else if has_entropy_data ca && is_noise ca then
      ai_call (snd_cwnd tp) (scaled_delta acked NOISE_AGGRESSION (snd_cwnd tp))
    else tcp_reno_cong_avoid ack acked.

(** ** Reference quantities

    The growth increment and the variance as the specification words them,
    over unbounded integers, for comparison with what the code computes. *)

(** [max(1, acked_count * factor / (current_window * 1000))] *)
Definition spec_delta (acked factor cwnd : Z) : Z :=
  Z.max 1 (acked * factor / (cwnd * 1000)).

(** The first [n] samples of the buffer. *)
Definition window (ca : ente_tcp) : list Z :=
  take (Z.to_nat (min_t u32 (history_count ca) ENTROPY_WINDOW_SIZE)) (rtt_history ca).

Definition list_sum (l : list Z) : Z := fold_right Z.add 0 l.

Definition sq_dev (mean x : Z) : Z := (x - mean) * (x - mean).

(** Mean squared deviation of a window around its (integer) mean. *)
Definition spec_mean_squared_deviation (l : list Z) : Z :=
  let n := Z.of_nat (length l) in
  let mean := list_sum l / n in
  list_sum (map (sq_dev mean) l) / n.


(** ** Sample connections

    Concrete sockets and event traces on which the statements below are
    exercised. *)

(** A socket with the given window, threshold and smoothed RTT in
    milliseconds ([srtt_us] holds microseconds scaled by 8). *)
Definition host (cwnd thresh rtt_ms : Z) : tcp_sock :=
  mk_tcp_sock cwnd thresh (rtt_ms * 1000 * 8).

Definition fresh : ente_tcp := snd (ente_tcp_init (host 10 TCP_INFINITE_SSTHRESH 10)).

(** The state after a trace, or the starting state if the trace traps. *)
Definition after (ca : ente_tcp) (es : list event) : ente_tcp :=
  match run ca es with
  | Some ca' => ca'
  | None => ca
  end.

(** One-segment acknowledgments at the given RTTs. *)
Definition acks_at (cwnd : Z) (rtts_ms : list Z) : list event :=
  map (fun ms => ev_cong_avoid (host cwnd TCP_INFINITE_SSTHRESH ms) 0 1) rtts_ms.

(** Eight samples of 10 ms, and eight samples alternating 5 ms / 50 ms. *)
Definition steady : ente_tcp := after fresh (acks_at 10 (replicate 8 10)).
Definition jittery : ente_tcp := after fresh (acks_at 10 [5; 50; 5; 50; 5; 50; 5; 50]).

(** A loss while [steady], then the socket of a long-lived connection whose
    window has grown past [2^32 / 1000] segments. *)
Definition steady_after_loss : ente_tcp :=
  after steady [ev_ssthresh (host 4 TCP_INFINITE_SSTHRESH 10)].
Definition wide_window : tcp_sock := host 4294968 TCP_INFINITE_SSTHRESH 10.

(** Four two-segment acknowledgments: three at 1 ms and one at 70 s. *)
Definition stalled : ente_tcp :=
  after fresh
    [ev_cong_avoid (host 10 TCP_INFINITE_SSTHRESH 1) 0 2;
     ev_cong_avoid (host 10 TCP_INFINITE_SSTHRESH 1) 0 2;
     ev_cong_avoid (host 10 TCP_INFINITE_SSTHRESH 1) 0 2;
     ev_cong_avoid (host 10 TCP_INFINITE_SSTHRESH 70000) 0 2].

(** ** Further notions

    Names for parts of the code and for the conditions under which the
    properties of the last part are stated. *)

(** The contribution of one non-empty bin in the third loop of
    [calculate_entropy]: [(p * log_p) / 1000000] for a bin of [h] samples
    out of [total]. *)
Definition bin_term (total h : Z) : Z :=
  let p := u64 (h * 1000000) / total in
  let log_p :=
    if p >? 0 then u32 (u32 (32 - builtin_clz (u32 (p / 1000))) * 1000) else 0 in
  u64 (p * log_p) / 1000000.

(** The fields that the decisions read: everything but [min_rtt_us],
    [rtt_variance], [avg_rtt_us] and [loss_event]. *)
Definition control (ca : ente_tcp) :=
  (prior_cwnd ca, ssthresh ca, rtt_history ca, history_index ca, history_count ca,
   shannon_entropy ca, packets_acked ca, has_entropy_data ca, in_slow_start ca,
   is_noise ca, is_congestion ca).

(** What [ente_tcp_cong_avoid] stores for a smoothed RTT: a value of
    milliseconds between 1 and 65535. *)
Definition valid_sample (v : Z) : Prop := 1 <= v <= 65535.

(** The cells below the write index have been written, and so have all 16
    once the count has run ahead of the index. *)
Definition written_prefix (ca : ente_tcp) : Prop :=
  (forall i : nat, Z.of_nat i < history_index ca -> valid_sample (rtt_at ca i)) /\
  (history_count ca <= history_index ca \/
   forall i : nat, (i < 16)%nat -> valid_sample (rtt_at ca i)).

(** The score is one of its two end points and the verdict is not Neutral. *)
Definition two_valued (ca : ente_tcp) : Prop :=
  (shannon_entropy ca = 0 \/ shannon_entropy ca = 1000) /\
  classification ca <> Neutral.

(** The RTT in microseconds that an acknowledgment is taken at:
    [srtt_us >> 3], forced to at least 1. *)
Definition sampled_rtt_us (tp : tcp_sock) : Z :=
  let rtt_us := Z.shiftr (srtt_us tp) 3 in
  if rtt_us =? 0 then 1 else rtt_us.

(** The sample in milliseconds that an acknowledgment stores:
    [min_t(u32, rtt_us / 1000, 65535)], forced to at least 1. *)
Definition stored_sample (tp : tcp_sock) : Z :=
  let rtt_ms := min_t u32 (sampled_rtt_us tp / 1000) 65535 in
  u16 (if rtt_ms =? 0 then 1 else rtt_ms).

(** The acknowledgments of a sequence that carry at least one segment. *)
Definition effective (acks : list (tcp_sock * Z * Z)) : list (tcp_sock * Z * Z) :=
  filter (fun a => snd a <> 0) acks.

(** Whether an event is the host asking for a new threshold. *)
Definition is_ssthresh (e : event) : bool :=
  match e with
  | ev_ssthresh _ => true
  | _ => false
  end.

(** ** The recomputation in two stages

    The block guarded by the interval first stores the fresh score, the
    statistics and the have-data flag, and then classifies by the stored
    score; [recompute_stages] below shows that [recompute] is the two in a
    row, followed by the clearing of [loss_event]. *)

(** The score is stored, the statistics updated, the counter reset and
    [has_entropy_data] raised. *)
Definition store_score (ca : ente_tcp) : ente_tcp :=
  let ca := set_shannon_entropy (u16 (calculate_entropy ca)) ca in
  let ca := update_rtt_stats ca in
  let ca := set_packets_acked 0 ca in
  set_has_entropy_data true ca.

(** The classification by the stored score against the two thresholds. *)
Definition classify_network (ca : ente_tcp) : ente_tcp :=
  if shannon_entropy ca >? HIGH_ENTROPY_THRESHOLD then
    set_is_congestion false (set_is_noise true ca)
  else if shannon_entropy ca <? LOW_ENTROPY_THRESHOLD then
    set_is_congestion true (set_is_noise false ca)
  else
    set_is_congestion false (set_is_noise false ca).

(** * Verification *)

(** ** Fixed-width conversions *)

Lemma wrap_range w z : 0 <= w -> 0 <= wrap w z < 2 ^ w.
Proof. intros Hw. unfold wrap. apply Z.mod_pos_bound. now apply Z.pow_pos_nonneg. Qed.

Lemma wrap_small w z : 0 <= z < 2 ^ w -> wrap w z = z.
Proof. intros H. unfold wrap. now apply Z.mod_small. Qed.

Lemma u16_range z : 0 <= u16 z < 65536.
Proof. apply (wrap_range 16). lia. Qed.

Lemma u32_range z : 0 <= u32 z < 4294967296.
Proof. apply (wrap_range 32). lia. Qed.

Lemma u16_small z : 0 <= z < 65536 -> u16 z = z.
Proof. apply (wrap_small 16). Qed.

Lemma u32_small z : 0 <= z < 4294967296 -> u32 z = z.
Proof. apply (wrap_small 32). Qed.

(** ** The entropy estimator *)

Section Estimator.

Variable ca : ente_tcp.

(** Over a constant stretch of the buffer the running minimum and
    maximum stay where they started. *)
Lemma min_max_constant (idx : list nat) (v : Z) :
  (forall i, In i idx -> rtt_at ca i = v) ->
  fold_left (min_max_step ca) idx (v, v) = (v, v).
Proof.
  induction idx as [|i idx IH]; intros Hall; [reflexivity|].
  cbn [fold_left]. unfold min_max_step at 2. cbn [fst snd].
  rewrite (Hall i) by now left.
  rewrite Z.gtb_ltb, Z.ltb_irrefl.
  apply IH. intros j Hj. apply Hall. now right.
Qed.

Lemma clamp_1000 (e : Z) : 0 <= u32 (min_t u64 e 1000) <= 1000.
Proof.
  unfold min_t.
  assert (H64 : 0 <= u64 e) by (apply (wrap_range 64); lia).
  assert (Hk : u64 1000 = 1000) by reflexivity.
  rewrite Hk.
  rewrite u32_small; lia.
Qed.

Lemma calculate_entropy_range : 0 <= calculate_entropy ca <= 1000.
Proof.
  unfold calculate_entropy.
  destruct (history_count ca <? 8); [lia|].
  cbv zeta.
  match goal with |- context [if ?c then _ else _] => destruct c end; [lia|].
  apply clamp_1000.
Qed.

Lemma calculate_entropy_few : history_count ca < 8 -> calculate_entropy ca = 0.
Proof.
  intros H. unfold calculate_entropy.
  apply Z.ltb_lt in H. now rewrite H.
Qed.

Lemma calculate_entropy_flat :
  (forall i j : nat,
      (i < Z.to_nat (min_t u32 (history_count ca) ENTROPY_WINDOW_SIZE))%nat ->
      (j < Z.to_nat (min_t u32 (history_count ca) ENTROPY_WINDOW_SIZE))%nat ->
      rtt_at ca i = rtt_at ca j) ->
  calculate_entropy ca = 0.
Proof.
  intros Hflat. unfold calculate_entropy.
  destruct (history_count ca <? 8); [reflexivity|].
  cbv zeta.
  set (count := min_t u32 (history_count ca) ENTROPY_WINDOW_SIZE) in *.
  rewrite min_max_constant.
  - cbn [fst snd]. rewrite Z.sub_diag. reflexivity.
  - intros i Hi. apply in_seq in Hi. apply Hflat; lia.
Qed.

End Estimator.

(** ** Stages of the acknowledgment handler *)

Lemma cong_avoid_stages tp ca ack acked :
  acked <> 0 ->
  ente_tcp_cong_avoid tp ca ack acked =
  let ca1 := periodic_recompute (record_sample tp ca acked) in
  let ca2 := set_in_slow_start (snd_cwnd tp <? ssthresh ca1) ca1 in
  (ca2, growth_call tp ca2 ack acked).
Proof.
  intros Hacked. unfold ente_tcp_cong_avoid.
  apply Z.eqb_neq in Hacked. rewrite Hacked.
  unfold periodic_recompute, record_sample, growth_call. cbv zeta.
  match goal with
  | |- context [set_in_slow_start ?b ?c] => generalize (set_in_slow_start b c)
  end.
  intros ca2.
  destruct (in_slow_start ca2), (has_entropy_data ca2 && is_congestion ca2),
    (has_entropy_data ca2 && is_noise ca2); reflexivity.
Qed.

Lemma cong_avoid_zero tp ca ack : ente_tcp_cong_avoid tp ca ack 0 = (ca, no_call).
Proof. reflexivity. Qed.

(** ** What each stage leaves alone *)

Ltac split_ifs :=
  repeat match goal with
         | |- context [if ?c then _ else _] => destruct c eqn:?
         end.

Ltac field_of stage := intros; unfold stage; cbv zeta; split_ifs; reflexivity.

Lemma stats_shannon_entropy ca : shannon_entropy (update_rtt_stats ca) = shannon_entropy ca.
Proof. field_of update_rtt_stats. Qed.

Lemma stats_packets_acked ca : packets_acked (update_rtt_stats ca) = packets_acked ca.
Proof. field_of update_rtt_stats. Qed.

Lemma stats_min_rtt_us ca : min_rtt_us (update_rtt_stats ca) = min_rtt_us ca.
Proof. field_of update_rtt_stats. Qed.

Lemma stats_history_count ca : history_count (update_rtt_stats ca) = history_count ca.
Proof. field_of update_rtt_stats. Qed.

Lemma stats_ssthresh ca : ssthresh (update_rtt_stats ca) = ssthresh ca.
Proof. field_of update_rtt_stats. Qed.

Lemma recompute_shannon_entropy ca :
  shannon_entropy (recompute ca) = u16 (calculate_entropy ca).
Proof.
  unfold recompute. cbv zeta. split_ifs; cbn; now rewrite stats_shannon_entropy.
Qed.

Lemma recompute_score_range ca : 0 <= shannon_entropy (recompute ca) <= 1000.
Proof.
  rewrite recompute_shannon_entropy.
  pose proof (calculate_entropy_range ca).
  rewrite u16_small; lia.
Qed.

Lemma recompute_packets_acked ca : packets_acked (recompute ca) = 0.
Proof. field_of recompute. Qed.

Lemma recompute_loss_event ca : loss_event (recompute ca) = false.
Proof. field_of recompute. Qed.

Lemma recompute_has_entropy_data ca : has_entropy_data (recompute ca) = true.
Proof. field_of recompute. Qed.

Lemma recompute_min_rtt_us ca : min_rtt_us (recompute ca) = min_rtt_us ca.
Proof. unfold recompute. cbv zeta. split_ifs; cbn; now rewrite stats_min_rtt_us. Qed.

Lemma recompute_history_count ca : history_count (recompute ca) = history_count ca.
Proof. unfold recompute. cbv zeta. split_ifs; cbn; now rewrite stats_history_count. Qed.

(** The verdict flags after a recomputation, read off the fresh score. *)
Lemma recompute_flags ca :
  let ca' := recompute ca in
  is_noise ca' = (shannon_entropy ca' >? HIGH_ENTROPY_THRESHOLD) /\
  is_congestion ca' =
    negb (shannon_entropy ca' >? HIGH_ENTROPY_THRESHOLD)
    && (shannon_entropy ca' <? LOW_ENTROPY_THRESHOLD).
Proof.
  cbv zeta. unfold recompute. cbv zeta.
  set (c := set_has_entropy_data true _).
  destruct (shannon_entropy c >? HIGH_ENTROPY_THRESHOLD) eqn:Hhi;
    [| destruct (shannon_entropy c <? LOW_ENTROPY_THRESHOLD) eqn:Hlo];
    cbn in *; rewrite ?Hhi, ?Hlo; auto.
Qed.

Lemma recompute_flags_exclusive ca : flags_exclusive (recompute ca).
Proof.
  unfold flags_exclusive. destruct (recompute_flags ca) as [-> ->].
  destruct (_ >? _); reflexivity.
Qed.

Lemma record_sample_shannon_entropy tp ca acked :
  shannon_entropy (record_sample tp ca acked) = shannon_entropy ca.
Proof. field_of record_sample. Qed.

Lemma record_sample_packets_acked tp ca acked :
  packets_acked (record_sample tp ca acked) = u16 (packets_acked ca + acked).
Proof. field_of record_sample. Qed.

Lemma record_sample_flags tp ca acked :
  let ca' := record_sample tp ca acked in
  has_entropy_data ca' = has_entropy_data ca /\
  is_noise ca' = is_noise ca /\
  is_congestion ca' = is_congestion ca.
Proof. unfold record_sample. cbv zeta. split_ifs; auto. Qed.

Lemma record_sample_min_rtt_us tp ca acked :
  min_rtt_us (record_sample tp ca acked) <= min_rtt_us ca.
Proof.
  unfold record_sample. cbv zeta.
  destruct (Z.shiftr (srtt_us tp) 3 =? 0);
    match goal with
    | |- context [?a <? min_rtt_us ?c] => destruct (Z.ltb_spec a (min_rtt_us c))
    end; split_ifs; cbn in *; lia.
Qed.

Lemma cong_avoid_state tp ca ack acked :
  fst (ente_tcp_cong_avoid tp ca ack acked) =
  if acked =? 0 then ca
  else
    let ca1 := periodic_recompute (record_sample tp ca acked) in
    set_in_slow_start (snd_cwnd tp <? ssthresh ca1) ca1.
Proof.
  destruct (Z.eqb_spec acked 0) as [->|Hne]; [reflexivity|].
  now rewrite cong_avoid_stages.
Qed.

Lemma step_cong_avoid tp ca ack acked ca' :
  step ca (ev_cong_avoid tp ack acked) = Some ca' ->
  ca' = fst (ente_tcp_cong_avoid tp ca ack acked).
Proof.
  cbn [step]. destruct (ente_tcp_cong_avoid tp ca ack acked) as [c call].
  destruct call; intros [= <-]; reflexivity.
Qed.

(** ** Invariants of the reachable states *)

Lemma periodic_recompute_score ca :
  score_in_range ca -> score_in_range (periodic_recompute ca).
Proof.
  unfold periodic_recompute. destruct (_ >=? _); [|auto].
  intros _. apply recompute_score_range.
Qed.

Lemma periodic_recompute_flags_exclusive ca :
  flags_exclusive ca -> flags_exclusive (periodic_recompute ca).
Proof.
  unfold periodic_recompute. destruct (_ >=? _); [|auto].
  intros _. apply recompute_flags_exclusive.
Qed.

Lemma cong_avoid_score tp ca ack acked :
  score_in_range ca -> score_in_range (fst (ente_tcp_cong_avoid tp ca ack acked)).
Proof.
  intros H. rewrite cong_avoid_state. destruct (acked =? 0); [exact H|].
  cbv zeta. unfold score_in_range. cbn [shannon_entropy set_in_slow_start].
  apply periodic_recompute_score. unfold score_in_range.
  now rewrite record_sample_shannon_entropy.
Qed.

Lemma cong_avoid_flags_exclusive tp ca ack acked :
  flags_exclusive ca -> flags_exclusive (fst (ente_tcp_cong_avoid tp ca ack acked)).
Proof.
  intros H. rewrite cong_avoid_state. destruct (acked =? 0); [exact H|].
  cbv zeta. unfold flags_exclusive. cbn [is_noise is_congestion set_in_slow_start].
  apply periodic_recompute_flags_exclusive. unfold flags_exclusive.
  destruct (record_sample_flags tp ca acked) as (_ & -> & ->). exact H.
Qed.

Lemma step_score ca e ca' :
  step ca e = Some ca' -> score_in_range ca -> score_in_range ca'.
Proof.
  destruct e as [tp|tp ack acked|tp|ev|ext|st]; intros Hstep H.
  - injection Hstep as <-. exact H.
  - apply step_cong_avoid in Hstep. subst ca'. now apply cong_avoid_score.
  - injection Hstep as <-. exact H.
  - injection Hstep as <-. destruct ev; exact H.
  - injection Hstep as <-. exact H.
  - injection Hstep as <-. destruct st; exact H.
Qed.

Lemma step_flags_exclusive ca e ca' :
  step ca e = Some ca' -> flags_exclusive ca -> flags_exclusive ca'.
Proof.
  destruct e as [tp|tp ack acked|tp|ev|ext|st]; intros Hstep H.
  - injection Hstep as <-. exact H.
  - apply step_cong_avoid in Hstep. subst ca'. now apply cong_avoid_flags_exclusive.
  - injection Hstep as <-. exact H.
  - injection Hstep as <-. destruct ev; exact H.
  - injection Hstep as <-. exact H.
  - injection Hstep as <-. destruct st; exact H.
Qed.

Lemma reachable_score ca : reachable ca -> score_in_range ca.
Proof.
  induction 1 as [tp|ca e ca' _ IH Hstep].
  - unfold score_in_range. cbn. lia.
  - eapply step_score; eauto.
Qed.

Lemma reachable_flags_exclusive ca : reachable ca -> flags_exclusive ca.
Proof.
  induction 1 as [tp|ca e ca' _ IH Hstep].
  - reflexivity.
  - eapply step_flags_exclusive; eauto.
Qed.

(** ** The ring buffer stays in shape *)

Lemma stats_buffer ca :
  rtt_history (update_rtt_stats ca) = rtt_history ca /\
  history_index (update_rtt_stats ca) = history_index ca /\
  history_count (update_rtt_stats ca) = history_count ca.
Proof. unfold update_rtt_stats. cbv zeta. split_ifs; auto. Qed.

Lemma recompute_buffer_ok ca : buffer_ok ca -> buffer_ok (recompute ca).
Proof.
  unfold buffer_ok, recompute. cbv zeta. intros H.
  set (c := set_shannon_entropy _ ca).
  destruct (stats_buffer c) as (Hh & Hi & Hn).
  split_ifs; cbn; rewrite Hh, Hi, Hn; exact H.
Qed.

Lemma record_sample_buffer_ok tp ca acked :
  buffer_ok ca -> buffer_ok (record_sample tp ca acked).
Proof.
  unfold buffer_ok, record_sample, ENTROPY_WINDOW_SIZE. cbv zeta.
  intros (Hlen & Hidx & Hcnt).
  assert (Hnext : 0 <= u16 ((history_index ca + 1) mod 16) < 16).
  { pose proof (Z.mod_pos_bound (history_index ca + 1) 16 ltac:(lia)).
    rewrite u16_small; lia. }
  destruct (Z.shiftr (srtt_us tp) 3 =? 0); destruct (_ <? min_rtt_us _);
    cbn [history_count set_min_rtt_us set_packets_acked set_rtt_history
         set_history_index set_history_count rtt_history history_index];
    destruct (Z.ltb_spec (history_count ca) 16);
    cbn [history_count set_min_rtt_us set_packets_acked set_rtt_history
         set_history_index set_history_count rtt_history history_index];
    rewrite length_insert.
  all: try rewrite (u16_small (history_count ca + 1)) by lia.
  all: split; [exact Hlen|split; [exact Hnext|lia]].
Qed.

Lemma step_buffer_ok ca e ca' :
  step ca e = Some ca' -> buffer_ok ca -> buffer_ok ca'.
Proof.
  destruct e as [tp|tp ack acked|tp|ev|ext|st]; intros Hstep H.
  - injection Hstep as <-. exact H.
  - apply step_cong_avoid in Hstep. subst ca'. rewrite cong_avoid_state.
    destruct (acked =? 0); [exact H|]. cbv zeta.
    change (buffer_ok (periodic_recompute (record_sample tp ca acked))).
    unfold periodic_recompute.
    destruct (_ >=? _); [apply recompute_buffer_ok|]; now apply record_sample_buffer_ok.
  - injection Hstep as <-. exact H.
  - injection Hstep as <-. destruct ev; try exact H.
    destruct H as (Hlen & Hidx & Hcnt). unfold buffer_ok, ENTROPY_WINDOW_SIZE in *.
    cbn. repeat split; (assumption || lia).
  - injection Hstep as <-. exact H.
  - injection Hstep as <-. destruct st; exact H.
Qed.

Lemma reachable_buffer_ok ca : reachable ca -> buffer_ok ca.
Proof.
  induction 1 as [tp|ca e ca' _ IH Hstep].
  - unfold buffer_ok, ENTROPY_WINDOW_SIZE. cbn. repeat split; lia.
  - eapply step_buffer_ok; eauto.
Qed.

Lemma run_reachable es : forall ca ca', reachable ca -> run ca es = Some ca' -> reachable ca'.
Proof.
  induction es as [|e es IH]; intros ca ca' Hr Hrun; cbn [run] in Hrun.
  - now injection Hrun as <-.
  - destruct (step ca e) as [c|] eqn:Hs; [|discriminate].
    eapply IH; [|exact Hrun]. eapply reachable_step; eauto.
Qed.

Lemma steady_reachable : reachable steady.
Proof.
  apply (run_reachable (acks_at 10 (replicate 8 10)) fresh).
  - apply reachable_init.
  - vm_compute. reflexivity.
Qed.

Lemma jittery_reachable : reachable jittery.
Proof.
  apply (run_reachable (acks_at 10 [5; 50; 5; 50; 5; 50; 5; 50]) fresh).
  - apply reachable_init.
  - vm_compute. reflexivity.
Qed.

(** ** The recomputation as a classifier *)

Lemma slow_start_flag_classification b ca :
  classification (set_in_slow_start b ca) = classification ca.
Proof. reflexivity. Qed.

Lemma slow_start_flag_shannon_entropy b ca :
  shannon_entropy (set_in_slow_start b ca) = shannon_entropy ca.
Proof. reflexivity. Qed.

Lemma slow_start_flag_loss_event b ca :
  loss_event (set_in_slow_start b ca) = loss_event ca.
Proof. reflexivity. Qed.

Lemma slow_start_flag_packets_acked b ca :
  packets_acked (set_in_slow_start b ca) = packets_acked ca.
Proof. reflexivity. Qed.

Lemma recompute_classification ca :
  classification (recompute ca) = verdict (shannon_entropy (recompute ca)).
Proof.
  unfold classification, verdict.
  rewrite recompute_has_entropy_data.
  destruct (recompute_flags ca) as [Hn Hc]. cbv zeta in Hn, Hc.
  rewrite Hn, Hc.
  destruct (_ >? _); [reflexivity|]. destruct (_ <? _); reflexivity.
Qed.

(** A recomputation over fewer than 8 samples always answers Congestion:
    the score 0 that stands for "not enough samples" is below the low
    threshold. *)
Lemma recompute_few_samples ca :
  history_count ca < 8 -> classification (recompute ca) = Congestion.
Proof.
  intros Hfew. rewrite recompute_classification, recompute_shannon_entropy.
  rewrite calculate_entropy_few by exact Hfew. reflexivity.
Qed.

Lemma cong_avoid_recomputes tp ca ack acked :
  acked <> 0 ->
  ENTROPY_CALC_INTERVAL <= u16 (packets_acked ca + acked) ->
  fst (ente_tcp_cong_avoid tp ca ack acked) =
  set_in_slow_start
    (snd_cwnd tp <? ssthresh (recompute (record_sample tp ca acked)))
    (recompute (record_sample tp ca acked)).
Proof.
  intros Hacked Hdue. rewrite cong_avoid_state.
  destruct (Z.eqb_spec acked 0) as [?|_]; [contradiction|].
  cbv zeta. unfold periodic_recompute.
  rewrite record_sample_packets_acked.
  destruct (Z.geb_spec (u16 (packets_acked ca + acked)) ENTROPY_CALC_INTERVAL);
    [reflexivity|lia].
Qed.

(** ** The baseline RTT *)

Lemma cong_avoid_min_rtt_us tp ca ack acked :
  min_rtt_us (fst (ente_tcp_cong_avoid tp ca ack acked)) <= min_rtt_us ca.
Proof.
  rewrite cong_avoid_state. destruct (acked =? 0); [lia|].
  cbv zeta. cbn [min_rtt_us set_in_slow_start].
  unfold periodic_recompute. destruct (_ >=? _).
  - rewrite recompute_min_rtt_us. apply record_sample_min_rtt_us.
  - apply record_sample_min_rtt_us.
Qed.

(** No callback after [init] ever raises the baseline. *)
Lemma step_min_rtt_us ca e ca' :
  step ca e = Some ca' -> min_rtt_us ca' <= min_rtt_us ca.
Proof.
  destruct e as [tp|tp ack acked|tp|ev|ext|st]; intros Hstep.
  - injection Hstep as <-. cbn. lia.
  - apply step_cong_avoid in Hstep. subst ca'. apply cong_avoid_min_rtt_us.
  - injection Hstep as <-. cbn. lia.
  - injection Hstep as <-. destruct ev; cbn; lia.
  - injection Hstep as <-. lia.
  - injection Hstep as <-. destruct st; cbn; lia.
Qed.

Lemma run_min_rtt_us (es : list event) :
  forall ca ca', run ca es = Some ca' -> min_rtt_us ca' <= min_rtt_us ca.
Proof.
  induction es as [|e es IH]; intros ca ca' Hrun; cbn [run] in Hrun.
  - injection Hrun as <-. lia.
  - destruct (step ca e) as [c|] eqn:Hstep; [|discriminate].
    apply IH in Hrun. apply step_min_rtt_us in Hstep. lia.
Qed.

(** ** Growth steps *)

Lemma scaled_delta_in_range acked factor cwnd :
  0 <= acked -> 0 <= factor -> acked * factor < 2 ^ 32 ->
  0 < cwnd -> cwnd * 1000 < 2 ^ 32 ->
  scaled_delta acked factor cwnd = Some (spec_delta acked factor cwnd).
Proof.
  intros Ha Hf Hnum Hc Hden. unfold scaled_delta, spec_delta, max_u.
  change (2 ^ 32) with 4294967296 in *.
  rewrite (u32_small (cwnd * 1000)) by lia.
  rewrite (u32_small (acked * factor)) by nia.
  destruct (Z.eqb_spec (cwnd * 1000) 0); [lia | reflexivity].
Qed.

Lemma stages_flags_exclusive tp ca acked :
  flags_exclusive ca ->
  flags_exclusive (periodic_recompute (record_sample tp ca acked)).
Proof.
  intros H. apply periodic_recompute_flags_exclusive. unfold flags_exclusive.
  destruct (record_sample_flags tp ca acked) as (_ & -> & ->). exact H.
Qed.

Lemma growth_call_slow_start tp ca ack acked :
  flags_exclusive ca ->
  in_slow_start ca = true ->
  (classification ca = Congestion -> growth_call tp ca ack acked = tcp_slow_start (acked / 2)) /\
  (classification ca <> Congestion -> growth_call tp ca ack acked = tcp_slow_start acked).
Proof.
  unfold flags_exclusive, growth_call, classification. intros Hex Hss. rewrite Hss.
  destruct (has_entropy_data ca), (is_noise ca), (is_congestion ca); cbn in *;
    try discriminate Hex;
    split; intros H; try reflexivity; try discriminate H; now destruct H.
Qed.

Lemma growth_call_cong_avoid tp ca ack acked :
  flags_exclusive ca ->
  in_slow_start ca = false ->
  (classification ca = Congestion ->
   growth_call tp ca ack acked =
   ai_call (snd_cwnd tp) (scaled_delta acked CONGESTION_CONSERVE (snd_cwnd tp))) /\
  (classification ca = Noise ->
   growth_call tp ca ack acked =
   ai_call (snd_cwnd tp) (scaled_delta acked NOISE_AGGRESSION (snd_cwnd tp))) /\
  (classification ca = Neutral \/ classification ca = NoData ->
   growth_call tp ca ack acked = tcp_reno_cong_avoid ack acked).
Proof.
  unfold flags_exclusive, growth_call, classification. intros Hex Hss. rewrite Hss.
  destruct (has_entropy_data ca), (is_noise ca), (is_congestion ca); cbn in *;
    try discriminate Hex;
    (split; [|split]); intros H; try reflexivity; try discriminate H;
    destruct H as [H|H]; discriminate H.
Qed.

Lemma steady_after_loss_reachable : reachable steady_after_loss.
Proof.
  apply (run_reachable [ev_ssthresh (host 4 TCP_INFINITE_SSTHRESH 10)] steady).
  - apply steady_reachable.
  - vm_compute. reflexivity.
Qed.

(** ** RTT statistics within the 32-bit range

    As long as no sample lies further than 46340 ms from the mean (the
    largest deviation whose square still fits [s32]), [update_rtt_stats]
    stores the mean squared deviation of the window. *)

Lemma s32_small z : - 2147483648 <= z < 2147483648 -> s32 z = z.
Proof.
  intros H. unfold s32. change (2 ^ 31) with 2147483648. change (2 ^ 32) with 4294967296.
  rewrite Z.mod_small; lia.
Qed.

Lemma u64_small z : 0 <= z < 18446744073709551616 -> u64 z = z.
Proof. apply (wrap_small 64). Qed.

(** A loop over the indices [0 .. n-1] of an array reads the first [n]
    cells in order. *)
Lemma fold_indices {A} (f : A -> Z -> A) (l : list Z) (n : nat) (a : A) :
  (n <= length l)%nat ->
  fold_left (fun acc i => f acc (l !!! i)) (seq 0 n) a = fold_left f (take n l) a.
Proof.
  induction n as [|n IH]; intros Hn; [reflexivity|].
  destruct (lookup_lt_is_Some_2 l n) as [x Hx]; [lia|].
  rewrite seq_S, fold_left_app, IH by lia. cbn [fold_left Nat.add].
  rewrite (take_S_r l n x Hx), fold_left_app. cbn [fold_left].
  now rewrite (list_lookup_total_correct l n x Hx).
Qed.

Lemma fold_sum_exact (l : list Z) : forall a,
  Forall (fun x => 0 <= x) l -> 0 <= a -> a + list_sum l < 4294967296 ->
  fold_left (fun s x => u32 (s + x)) l a = a + list_sum l.
Proof.
  induction l as [|x l IH]; intros a Hl Ha Hb; cbn [fold_left list_sum fold_right] in *.
  - lia.
  - inversion Hl as [|? ? Hx Hl']; subst.
    assert (0 <= list_sum l).
    { clear -Hl'. induction Hl'; cbn [list_sum fold_right]; [lia|]. unfold list_sum in *. lia. }
    unfold list_sum in *.
    rewrite u32_small by lia. rewrite IH; [lia|assumption|lia|lia].
Qed.

Lemma list_sum_cons x l : list_sum (x :: l) = x + list_sum l.
Proof. reflexivity. Qed.

Lemma list_sum_bounds (lo hi : Z) (l : list Z) :
  Forall (fun x => lo <= x <= hi) l ->
  Z.of_nat (length l) * lo <= list_sum l <= Z.of_nat (length l) * hi.
Proof.
  induction 1 as [|x l Hx _ IH].
  - cbn. lia.
  - rewrite list_sum_cons. cbn [length]. lia.
Qed.

Lemma fold_variance_exact (avg : Z) (l : list Z) : forall a,
  0 <= avg < 65536 ->
  Forall (fun x => 0 <= x < 65536 /\ Z.abs (x - avg) <= 46340) l ->
  0 <= a -> a + Z.of_nat (length l) * 2147483648 < 18446744073709551616 ->
  fold_left
    (fun v x =>
       u64 (v + u64 (s32 (s32 (s32 x - s32 avg) * s32 (s32 x - s32 avg)))))
    l a
  = a + list_sum (map (sq_dev avg) l).
Proof.
  intros a Havg Hl. revert a.
  set (step := fun v x => u64 (v + u64 (s32 (s32 (s32 x - s32 avg) * s32 (s32 x - s32 avg))))).
  induction Hl as [|x l [Hx Hd] _ IH]; intros a Ha Hb;
    cbn [fold_left map length] in *; [cbn; lia|].
  rewrite list_sum_cons. unfold step at 2.
  assert (Hsq : 0 <= sq_dev avg x < 2147483648) by (unfold sq_dev; nia).
  rewrite (s32_small x), (s32_small avg), (s32_small (x - avg)) by lia.
  fold (sq_dev avg x).
  rewrite (s32_small (sq_dev avg x)) by lia.
  rewrite (u64_small (sq_dev avg x)) by lia.
  rewrite u64_small by lia.
  rewrite IH by lia. lia.
Qed.

Lemma update_rtt_stats_exact (ca : ente_tcp) :
  length (rtt_history ca) = 16%nat ->
  4 <= history_count ca < 65536 ->
  Forall (fun x => 0 <= x < 65536) (window ca) ->
  Forall (fun x =>
            Z.abs (x - list_sum (window ca) / Z.of_nat (length (window ca))) <= 46340)
         (window ca) ->
  rtt_variance (update_rtt_stats ca) = spec_mean_squared_deviation (window ca).
Proof.
  intros Hlen Hcount Hrange Hdev.
  unfold update_rtt_stats, spec_mean_squared_deviation.
  destruct (Z.ltb_spec (history_count ca) 4) as [?|_]; [lia|].
  cbv zeta. cbn [rtt_variance set_stats].
  unfold window in *.
  set (count := min_t u32 (history_count ca) ENTROPY_WINDOW_SIZE) in *.
  assert (Hc : 4 <= count <= 16).
  { unfold count, min_t, ENTROPY_WINDOW_SIZE.
    rewrite (u32_small (history_count ca)) by lia.
    change (u32 16) with 16. lia. }
  set (n := Z.to_nat count) in *.
  assert (Hn : (n <= length (rtt_history ca))%nat) by lia.
  set (w := take n (rtt_history ca)) in *.
  assert (Hw : Z.of_nat (length w) = count).
  { unfold w. rewrite length_take. lia. }
  rewrite Hw in *.
  assert (Hsum : fold_left (sum_step ca) (seq 0 n) 0 = list_sum w).
  { pose proof (list_sum_bounds 0 65535 w) as Hb.
    unfold sum_step, rtt_at.
    rewrite (fold_indices (fun s x => u32 (s + x)) (rtt_history ca) n 0 Hn).
    fold w. rewrite fold_sum_exact.
    - lia.
    - eapply Forall_impl; [exact Hrange|]. cbn. lia.
    - lia.
    - rewrite Hw in Hb. destruct Hb; [|lia].
      eapply Forall_impl; [exact Hrange|]. cbn. lia. }
  rewrite Hsum.
  set (avg := list_sum w / count) in *.
  assert (Havg : 0 <= avg < 65536).
  { pose proof (list_sum_bounds 0 65535 w) as Hb. rewrite Hw in Hb.
    assert (0 <= list_sum w <= count * 65535).
    { destruct Hb; [|lia]. eapply Forall_impl; [exact Hrange|]. cbn. lia. }
    unfold avg. split.
    - apply Z.div_pos; lia.
    - apply Z.div_lt_upper_bound; lia. }
  assert (Hvar : fold_left (variance_step ca avg) (seq 0 n) 0
                 = list_sum (map (sq_dev avg) w)).
  { unfold variance_step, rtt_at. cbv zeta.
    rewrite (fold_indices
               (fun v x => u64 (v + u64 (s32 (s32 (s32 x - s32 avg) * s32 (s32 x - s32 avg)))))
               (rtt_history ca) n 0 Hn).
    fold w. rewrite fold_variance_exact; [lia|exact Havg| |lia|lia].
    apply Forall_and. split; assumption. }
  rewrite Hvar.
  assert (Hsq : 0 <= list_sum (map (sq_dev avg) w) <= count * 2147395600).
  { pose proof (list_sum_bounds 0 2147395600 (map (sq_dev avg) w)) as Hb.
    rewrite length_map, Hw in Hb. destruct Hb; [|lia].
    apply Forall_map. eapply Forall_impl; [exact Hdev|].
    intros x Hx. unfold sq_dev. cbn in *.
    assert (- 46340 <= x - avg <= 46340) by lia.
    generalize dependent (x - avg). intros d _ Hd. nia. }
  rewrite u32_small; [reflexivity|].
  split.
  - apply Z.div_pos; lia.
  - apply Z.div_lt_upper_bound; lia.
Qed.

Example jittery_variance_exact : rtt_variance (update_rtt_stats jittery) = 506.
Proof.
  rewrite update_rtt_stats_exact.
  - vm_compute. reflexivity.
  - reflexivity.
  - change (history_count jittery) with 8. lia.
  - change (window jittery) with [5; 50; 5; 50; 5; 50; 5; 50].
    repeat constructor; lia.
  - change (window jittery) with [5; 50; 5; 50; 5; 50; 5; 50].
    change (list_sum _ / _) with 27.
    repeat constructor; lia.
Qed.

(** Within the 32-bit range.  For every acknowledgment with [acked > 0]
    in a state whose two verdict flags are not both set: in slow start the
    step handed to [tcp_slow_start] is [acked / 2] when the classification
    is Congestion and [acked] otherwise; in congestion avoidance the
    increment handed to [tcp_cong_avoid_ai] is what [scaled_delta] computes
    in [u32], which is [max(1, acked * factor / (cwnd * 1000))] whenever
    both products fit 32 bits and [cwnd > 0]; for Neutral and NoData the
    handler defers to [tcp_reno_cong_avoid]. *)
Theorem growth_step_by_classification (tp : tcp_sock) (ca : ente_tcp) (ack acked : Z) :
  flags_exclusive ca ->
  0 < acked ->
  let ca' := fst (ente_tcp_cong_avoid tp ca ack acked) in
  let call := snd (ente_tcp_cong_avoid tp ca ack acked) in
  let cwnd := snd_cwnd tp in
  in_slow_start ca' = (cwnd <? ssthresh ca') /\
  (in_slow_start ca' = true ->
   (classification ca' = Congestion -> call = tcp_slow_start (acked / 2)) /\
   (classification ca' <> Congestion -> call = tcp_slow_start acked)) /\
  (in_slow_start ca' = false ->
   (classification ca' = Congestion ->
    call = ai_call cwnd (scaled_delta acked CONGESTION_CONSERVE cwnd) /\
    (acked * CONGESTION_CONSERVE < 2 ^ 32 -> 0 < cwnd -> cwnd * 1000 < 2 ^ 32 ->
     call = tcp_cong_avoid_ai cwnd (spec_delta acked CONGESTION_CONSERVE cwnd))) /\
   (classification ca' = Noise ->
    call = ai_call cwnd (scaled_delta acked NOISE_AGGRESSION cwnd) /\
    (acked * NOISE_AGGRESSION < 2 ^ 32 -> 0 < cwnd -> cwnd * 1000 < 2 ^ 32 ->
     call = tcp_cong_avoid_ai cwnd (spec_delta acked NOISE_AGGRESSION cwnd))) /\
   (classification ca' = Neutral \/ classification ca' = NoData ->
    call = tcp_reno_cong_avoid ack acked)).
Proof.
  intros Hex Hacked. cbv zeta.
  rewrite cong_avoid_stages by lia. cbv zeta. cbn [fst snd].
  pose proof (stages_flags_exclusive tp ca acked Hex) as Hex1.
  revert Hex1. generalize (periodic_recompute (record_sample tp ca acked)).
  intros ca1 Hex1.
  set (ca2 := set_in_slow_start (snd_cwnd tp <? ssthresh ca1) ca1).
  assert (Hex2 : flags_exclusive ca2) by exact Hex1.
  split; [reflexivity|]. split.
  - intros Hss. now apply growth_call_slow_start.
  - intros Hss.
    destruct (growth_call_cong_avoid tp ca2 ack acked Hex2 Hss) as (Hc & Hn & Hd).
    split; [|split]; [| |exact Hd].
    + intros Hclass. split; [now apply Hc|].
      intros Hnum Hpos Hden. rewrite (Hc Hclass).
      rewrite scaled_delta_in_range; [reflexivity| | | | |];
        unfold CONGESTION_CONSERVE in *; lia.
    + intros Hclass. split; [now apply Hn|].
      intros Hnum Hpos Hden. rewrite (Hn Hclass).
      rewrite scaled_delta_in_range; [reflexivity| | | | |];
        unfold NOISE_AGGRESSION in *; lia.
Qed.

Lemma growth_step_by_classification_witness :
  let tp := host 20 TCP_INFINITE_SSTHRESH 10 in
  let loss := [ev_ssthresh (host 12 TCP_INFINITE_SSTHRESH 10)] in
  snd (ente_tcp_cong_avoid tp steady 0 3) = tcp_slow_start 1 /\
  snd (ente_tcp_cong_avoid tp (after jittery loss) 0 100) = tcp_cong_avoid_ai 20 7 /\
  snd (ente_tcp_cong_avoid tp (after steady loss) 0 100) = tcp_cong_avoid_ai 20 2.
Proof.
  cbv zeta. split; [|split].
  - assert (Hex : flags_exclusive steady) by reflexivity.
    assert (Hacked : 0 < 3) by lia.
    destruct (growth_step_by_classification
                (host 20 TCP_INFINITE_SSTHRESH 10) steady 0 3 Hex Hacked)
      as (_ & Hss & _).
    assert (Hphase : in_slow_start
                       (fst (ente_tcp_cong_avoid
                               (host 20 TCP_INFINITE_SSTHRESH 10) steady 0 3)) = true)
      by (vm_compute; reflexivity).
    destruct (Hss Hphase) as [Hhalf _].
    apply Hhalf. vm_compute. reflexivity.
  - set (ca := after jittery [ev_ssthresh (host 12 TCP_INFINITE_SSTHRESH 10)]).
    assert (Hex : flags_exclusive ca) by (vm_compute; reflexivity).
    assert (Hacked : 0 < 100) by lia.
    destruct (growth_step_by_classification
                (host 20 TCP_INFINITE_SSTHRESH 10) ca 0 100 Hex Hacked)
      as (_ & _ & Hca).
    assert (Hphase : in_slow_start
                       (fst (ente_tcp_cong_avoid
                               (host 20 TCP_INFINITE_SSTHRESH 10) ca 0 100)) = false)
      by (vm_compute; reflexivity).
    destruct (Hca Hphase) as (_ & Hnoise & _).
    assert (Hclass : classification
                       (fst (ente_tcp_cong_avoid
                               (host 20 TCP_INFINITE_SSTHRESH 10) ca 0 100)) = Noise)
      by (vm_compute; reflexivity).
    destruct (Hnoise Hclass) as [_ Hplain].
    apply Hplain; vm_compute; reflexivity.
  - set (ca := after steady [ev_ssthresh (host 12 TCP_INFINITE_SSTHRESH 10)]).
    assert (Hex : flags_exclusive ca) by (vm_compute; reflexivity).
    assert (Hacked : 0 < 100) by lia.
    destruct (growth_step_by_classification
                (host 20 TCP_INFINITE_SSTHRESH 10) ca 0 100 Hex Hacked)
      as (_ & _ & Hca).
    assert (Hphase : in_slow_start
                       (fst (ente_tcp_cong_avoid
                               (host 20 TCP_INFINITE_SSTHRESH 10) ca 0 100)) = false)
      by (vm_compute; reflexivity).
    destruct (Hca Hphase) as (Hcong & _ & _).
    assert (Hclass : classification
                       (fst (ente_tcp_cong_avoid
                               (host 20 TCP_INFINITE_SSTHRESH 10) ca 0 100)) = Congestion)
      by (vm_compute; reflexivity).
    destruct (Hcong Hclass) as [_ Hplain].
    apply Hplain; vm_compute; reflexivity.
Defined.

(** ** The recomputation, stage by stage *)

Lemma recompute_stages ca :
  recompute ca = set_loss_event false (classify_network (store_score ca)).
Proof. reflexivity. Qed.

Lemma store_score_fields ca :
  has_entropy_data (store_score ca) = true /\
  shannon_entropy (store_score ca) = calculate_entropy ca.
Proof.
  unfold store_score. cbv zeta. cbn [has_entropy_data shannon_entropy
    set_has_entropy_data set_packets_acked].
  split; [reflexivity|].
  rewrite stats_shannon_entropy. cbn [shannon_entropy set_shannon_entropy].
  pose proof (calculate_entropy_range ca). apply u16_small. lia.
Qed.

(** The classification block, for any stored score and any previous flags. *)
Lemma classify_network_by_score c :
  has_entropy_data c = true ->
  shannon_entropy (classify_network c) = shannon_entropy c /\
  (shannon_entropy c > 700 -> classification (classify_network c) = Noise) /\
  (shannon_entropy c < 400 -> classification (classify_network c) = Congestion) /\
  (400 <= shannon_entropy c <= 700 -> classification (classify_network c) = Neutral).
Proof.
  intros Hdata.
  unfold classify_network, classification, HIGH_ENTROPY_THRESHOLD, LOW_ENTROPY_THRESHOLD.
  destruct (Z.gtb_spec (shannon_entropy c) 700) as [Hhi|Hhi];
    [|destruct (Z.ltb_spec (shannon_entropy c) 400) as [Hlo|Hlo]];
    cbn [shannon_entropy has_entropy_data is_noise is_congestion
         set_is_noise set_is_congestion];
    rewrite Hdata;
    (split; [reflexivity|]); (split; [|split]); intros H;
    first [reflexivity | lia].
Qed.

(** * The properties *)

(** C1.  Whatever the RTT history holds (any sample count, any contents),
    [calculate_entropy] answers a value between 0 and 1000; and in every
    state a connection can reach, the stored [shannon_entropy] field lies
    between 0 and 1000. *)
Theorem entropy_score_bounded (ca : ente_tcp) :
  0 <= calculate_entropy ca <= 1000 /\
  (reachable ca -> 0 <= shannon_entropy ca <= 1000).
Proof.
  split.
  - apply calculate_entropy_range.
  - apply reachable_score.
Qed.

Lemma entropy_score_bounded_witness :
  0 <= calculate_entropy jittery <= 1000 /\ 0 <= shannon_entropy jittery <= 1000.
Proof.
  destruct (entropy_score_bounded jittery) as [Hcalc Hfield].
  split; [exact Hcalc | apply Hfield, jittery_reachable].
Defined.

(** C2.  A fresh connection receives one acknowledgment covering eight
    segments.  One sample is stored, yet the interval has elapsed, the
    recomputation runs on it, [has_entropy_data] is raised and the
    insufficient-data score 0 is read as Congestion: the classification is
    no longer NoData, and slow start is handed 4 segments, not the 8 of
    the default behaviour. *)
Theorem single_ack_classifies_early :
  let r := ente_tcp_cong_avoid (host 10 TCP_INFINITE_SSTHRESH 10) fresh 0 8 in
  classification fresh = NoData /\
  reachable (fst r) /\
  history_count (fst r) = 1 /\
  has_entropy_data (fst r) = true /\
  shannon_entropy (fst r) = 0 /\
  classification (fst r) = Congestion /\
  in_slow_start (fst r) = true /\
  snd r = tcp_slow_start 4.
Proof.
  cbv zeta. split; [reflexivity|]. split.
  - apply (reachable_step fresh (ev_cong_avoid (host 10 TCP_INFINITE_SSTHRESH 10) 0 8)).
    + apply reachable_init.
    + vm_compute. reflexivity.
  - vm_compute. repeat split.
Qed.

(** C3.  For every state and every current window, [ente_tcp_ssthresh]
    returns [max(cwnd / 3, 2)] when the classification is Noise and
    [max(cwnd / 2, 2)] when it is Congestion, Neutral or NoData; in every
    case it sets [loss_event], stores the returned value as the new
    [ssthresh], and snapshots [prior_cwnd = cwnd]. *)
Theorem ssthresh_by_classification (tp : tcp_sock) (ca : ente_tcp) :
  let ca' := fst (ente_tcp_ssthresh tp ca) in
  let ret := snd (ente_tcp_ssthresh tp ca) in
  (classification ca = Noise -> ret = Z.max (snd_cwnd tp / 3) 2) /\
  (classification ca = Congestion \/ classification ca = Neutral \/
   classification ca = NoData -> ret = Z.max (snd_cwnd tp / 2) 2) /\
  loss_event ca' = true /\
  ssthresh ca' = ret /\
  prior_cwnd ca' = snd_cwnd tp.
Proof.
  cbv zeta. unfold ente_tcp_ssthresh, classification. cbv zeta.
  cbn [fst snd has_entropy_data is_noise is_congestion set_loss_event
       set_ssthresh set_prior_cwnd ssthresh loss_event prior_cwnd].
  destruct (has_entropy_data ca), (is_noise ca), (is_congestion ca);
    repeat split; try reflexivity; intros H;
    try discriminate H; try (destruct H as [H|[H|H]]; discriminate H).
Qed.

Lemma ssthresh_by_classification_witness :
  snd (ente_tcp_ssthresh (host 30 TCP_INFINITE_SSTHRESH 10) jittery) = 10 /\
  snd (ente_tcp_ssthresh (host 30 TCP_INFINITE_SSTHRESH 10) steady) = 15 /\
  snd (ente_tcp_ssthresh (host 3 TCP_INFINITE_SSTHRESH 10) fresh) = 2.
Proof.
  split; [|split].
  - apply (proj1 (ssthresh_by_classification (host 30 TCP_INFINITE_SSTHRESH 10) jittery)).
    vm_compute. reflexivity.
  - apply (proj1 (proj2 (ssthresh_by_classification (host 30 TCP_INFINITE_SSTHRESH 10) steady))).
    left. vm_compute. reflexivity.
  - apply (proj1 (proj2 (ssthresh_by_classification (host 3 TCP_INFINITE_SSTHRESH 10) fresh))).
    right. right. vm_compute. reflexivity.
Defined.

(** C4.  The increment of congestion avoidance is formed in unsigned
    32-bit arithmetic with no guard, so the formula
    [max(1, acked * 500 / (cwnd * 1000))] is lost once [snd_cwnd * 1000]
    no longer fits.  A reachable connection classified Congestion (eight
    steady samples, then a loss) at a window of 4294968 segments:
    [snd_cwnd * 1000] wraps to 704, and three acknowledged segments are
    handed to [tcp_cong_avoid_ai] as the increment [1500 / 704 = 2], where
    the formula gives 1. *)
Lemma growth_step_wraps :
  let r := ente_tcp_cong_avoid wide_window steady_after_loss 0 3 in
  reachable steady_after_loss /\
  classification (fst r) = Congestion /\
  in_slow_start (fst r) = false /\
  snd r = tcp_cong_avoid_ai 4294968 2 /\
  spec_delta 3 CONGESTION_CONSERVE (snd_cwnd wide_window) = 1 /\
  snd r <> tcp_cong_avoid_ai (snd_cwnd wide_window)
             (spec_delta 3 CONGESTION_CONSERVE (snd_cwnd wide_window)).
Proof.
  cbv zeta. split; [apply steady_after_loss_reachable|].
  vm_compute. repeat split. discriminate.
Qed.

(** C5.  The classification block is a function of the stored score
    alone: for every state with [has_entropy_data] set, whatever its flags
    were, a score above 700 yields Noise, a score below 400 yields
    Congestion, and any score from 400 to 700 yields Neutral, the score
    itself being left as it is.  Whenever an acknowledgment triggers the
    recomputation (the 16-bit counter, after adding [acked], has reached the
    interval of 8), the resulting state is that block applied to the state
    holding the score just computed from the updated history, with
    [loss_event] cleared and [packets_acked] reset to 0. *)
Theorem recompute_classifies (tp : tcp_sock) (ca : ente_tcp) (ack acked : Z) :
  (forall c : ente_tcp,
      has_entropy_data c = true ->
      shannon_entropy (classify_network c) = shannon_entropy c /\
      (shannon_entropy c > 700 -> classification (classify_network c) = Noise) /\
      (shannon_entropy c < 400 -> classification (classify_network c) = Congestion) /\
      (400 <= shannon_entropy c <= 700 ->
       classification (classify_network c) = Neutral)) /\
  (acked <> 0 ->
   ENTROPY_CALC_INTERVAL <= u16 (packets_acked ca + acked) ->
   let ca' := fst (ente_tcp_cong_avoid tp ca ack acked) in
   let scored := store_score (record_sample tp ca acked) in
   ca' = set_in_slow_start (in_slow_start ca')
           (set_loss_event false (classify_network scored)) /\
   has_entropy_data scored = true /\
   shannon_entropy scored = calculate_entropy (record_sample tp ca acked) /\
   shannon_entropy ca' = calculate_entropy (record_sample tp ca acked) /\
   classification ca' = classification (classify_network scored) /\
   (shannon_entropy ca' > 700 -> classification ca' = Noise) /\
   (shannon_entropy ca' < 400 -> classification ca' = Congestion) /\
   (400 <= shannon_entropy ca' <= 700 -> classification ca' = Neutral) /\
   loss_event ca' = false /\
   packets_acked ca' = 0).
Proof.
  split.
  - intros c Hdata. apply classify_network_by_score, Hdata.
  - intros Hacked Hdue. cbv zeta.
    rewrite (cong_avoid_recomputes tp ca ack acked Hacked Hdue).
    generalize (record_sample tp ca acked). intros rs.
    rewrite slow_start_flag_classification, slow_start_flag_shannon_entropy,
      slow_start_flag_loss_event, slow_start_flag_packets_acked.
    rewrite recompute_loss_event, recompute_packets_acked.
    pose proof (store_score_fields rs) as (Hdata & Hscore).
    destruct (classify_network_by_score (store_score rs) Hdata)
      as (Hkeep & Hnoise & Hcong & Hneutral).
    assert (Hclass : classification (recompute rs)
                     = classification (classify_network (store_score rs)))
      by (rewrite recompute_stages; reflexivity).
    assert (Hstored : shannon_entropy (recompute rs) = calculate_entropy rs).
    { rewrite recompute_stages.
      change (shannon_entropy (set_loss_event false (classify_network (store_score rs))))
        with (shannon_entropy (classify_network (store_score rs))).
      now rewrite Hkeep. }
    rewrite Hclass, Hstored. rewrite Hscore in Hnoise, Hcong, Hneutral.
    split; [reflexivity|].
    repeat (split; [assumption || reflexivity|]). reflexivity.
Qed.

Lemma recompute_classifies_witness :
  let ca' := fst (ente_tcp_cong_avoid (host 10 TCP_INFINITE_SSTHRESH 50) jittery 0 8) in
  classification (classify_network (set_shannon_entropy 550 jittery)) = Neutral /\
  classification (classify_network (set_shannon_entropy 200 jittery)) = Congestion /\
  shannon_entropy ca' = 1000 /\ classification ca' = Noise /\
  loss_event ca' = false /\ packets_acked ca' = 0.
Proof.
  cbv zeta.
  destruct (recompute_classifies (host 10 TCP_INFINITE_SSTHRESH 50) jittery 0 8)
    as [Hblock Hack].
  split; [|split].
  - destruct (Hblock (set_shannon_entropy 550 jittery)) as (_ & _ & _ & Hneutral);
      [reflexivity|].
    apply Hneutral. cbn [shannon_entropy set_shannon_entropy]. lia.
  - destruct (Hblock (set_shannon_entropy 200 jittery)) as (_ & _ & Hcong & _);
      [reflexivity|].
    apply Hcong. cbn [shannon_entropy set_shannon_entropy]. lia.
  - assert (Hacked : 8 <> 0) by lia.
    assert (Hdue : ENTROPY_CALC_INTERVAL <= u16 (packets_acked jittery + 8))
      by (vm_compute; discriminate).
    destruct (Hack Hacked Hdue)
      as (_ & _ & _ & Hscore & _ & Hnoise & _ & _ & Hloss & Hcount).
    assert (Hval : calculate_entropy
                     (record_sample (host 10 TCP_INFINITE_SSTHRESH 50) jittery 8) = 1000)
      by (vm_compute; reflexivity).
    rewrite Hval in Hscore.
    split; [exact Hscore|].
    split; [apply Hnoise; rewrite Hscore; lia|].
    split; assumption.
Defined.

(** C6.  Four stored samples, each in [1, 65535]: three of 1 ms and one
    of 65535 ms.  The mean is 16384, the deviation of the last sample is
    49151, and its square, formed in [s32] before the widening cast, wraps
    to a negative value; the stored variance is 4026482689 where the mean
    squared deviation of the window is 805257217. *)
Theorem variance_wraps_on_wide_spread :
  reachable stalled /\
  window stalled = [1; 1; 1; 65535] /\
  s32 (49151 * 49151) = -1879146495 /\
  rtt_variance stalled = 4026482689 /\
  spec_mean_squared_deviation (window stalled) = 805257217.
Proof.
  split.
  - apply (run_reachable
             [ev_cong_avoid (host 10 TCP_INFINITE_SSTHRESH 1) 0 2;
              ev_cong_avoid (host 10 TCP_INFINITE_SSTHRESH 1) 0 2;
              ev_cong_avoid (host 10 TCP_INFINITE_SSTHRESH 1) 0 2;
              ev_cong_avoid (host 10 TCP_INFINITE_SSTHRESH 70000) 0 2] fresh).
    + apply reachable_init.
    + vm_compute. reflexivity.
  - vm_compute. repeat split.
Qed.

(** C7.  [calculate_entropy] returns 0 whenever fewer than 8 samples are
    stored, and returns 0 whenever all samples of the window are equal
    (so that [max_val == min_val]), however many samples are stored. *)
Theorem entropy_zero_without_spread (ca : ente_tcp) :
  (history_count ca < 8 -> calculate_entropy ca = 0) /\
  ((forall i j : nat,
       (i < Z.to_nat (min_t u32 (history_count ca) ENTROPY_WINDOW_SIZE))%nat ->
       (j < Z.to_nat (min_t u32 (history_count ca) ENTROPY_WINDOW_SIZE))%nat ->
       rtt_at ca i = rtt_at ca j) ->
   calculate_entropy ca = 0).
Proof.
  split.
  - apply calculate_entropy_few.
  - apply calculate_entropy_flat.
Qed.

Lemma entropy_zero_without_spread_witness :
  calculate_entropy fresh = 0 /\ calculate_entropy steady = 0.
Proof.
  split.
  - apply (proj1 (entropy_zero_without_spread fresh)). vm_compute. reflexivity.
  - apply (proj2 (entropy_zero_without_spread steady)).
    change (Z.to_nat (min_t u32 (history_count steady) ENTROPY_WINDOW_SIZE)) with 8%nat.
    intros i j Hi Hj.
    assert (Hrow : forall k : nat, (k < 8)%nat -> rtt_at steady k = 10).
    { intros k Hk. do 8 (destruct k as [|k]; [reflexivity|]). lia. }
    now rewrite !Hrow.
Defined.

(** C8.  [min_rtt_us] never grows across any sequence of acknowledgment
    events; and the idle-restart event sets [history_count] to 0 and the
    classification to NoData while leaving [min_rtt_us] as it was. *)
Theorem min_rtt_baseline :
  (forall (acks : list (tcp_sock * Z * Z)) (ca ca' : ente_tcp),
      run ca (map ack_event acks) = Some ca' -> min_rtt_us ca' <= min_rtt_us ca) /\
  (forall ca : ente_tcp,
      let ca' := ente_tcp_cwnd_event ca CA_EVENT_CWND_RESTART in
      history_count ca' = 0 /\
      classification ca' = NoData /\
      min_rtt_us ca' = min_rtt_us ca).
Proof.
  split.
  - intros acks ca ca'. apply run_min_rtt_us.
  - intros ca. cbv zeta. repeat split.
Qed.

Lemma min_rtt_baseline_witness :
  min_rtt_us (after fresh (map ack_event
    [(host 10 TCP_INFINITE_SSTHRESH 30, 0, 1);
     (host 11 TCP_INFINITE_SSTHRESH 20, 0, 2);
     (host 13 TCP_INFINITE_SSTHRESH 40, 0, 1)])) <= min_rtt_us fresh.
Proof.
  apply (proj1 min_rtt_baseline
           [(host 10 TCP_INFINITE_SSTHRESH 30, 0, 1);
            (host 11 TCP_INFINITE_SSTHRESH 20, 0, 2);
            (host 13 TCP_INFINITE_SSTHRESH 40, 0, 1)] fresh).
  vm_compute. reflexivity.
Defined.

(** C9.  For every state, [ente_tcp_undo_cwnd] sets the window to
    [max(cwnd, prior_cwnd)], recomputes [in_slow_start] as
    [cwnd < ssthresh] on the new window, and neither the resulting window
    nor the returned value is smaller than the window before the call. *)
Theorem undo_cwnd_restores (tp : tcp_sock) (ca : ente_tcp) :
  let tp' := fst (fst (ente_tcp_undo_cwnd tp ca)) in
  let ca' := snd (fst (ente_tcp_undo_cwnd tp ca)) in
  let ret := snd (ente_tcp_undo_cwnd tp ca) in
  snd_cwnd tp' = Z.max (snd_cwnd tp) (prior_cwnd ca) /\
  ssthresh ca' = ssthresh ca /\
  in_slow_start ca' = (snd_cwnd tp' <? ssthresh ca') /\
  snd_cwnd tp <= snd_cwnd tp' /\
  snd_cwnd tp <= ret.
Proof.
  cbv zeta. unfold ente_tcp_undo_cwnd, max_u. cbn.
  repeat split; lia.
Qed.

(** C10.  [ente_tcp_undo_cwnd] is idempotent: a second call right after
    the first leaves the socket and the whole private state as the first
    call left them, and returns the same value. *)
Theorem undo_cwnd_idempotent (tp : tcp_sock) (ca : ente_tcp) :
  let once := ente_tcp_undo_cwnd tp ca in
  let twice := ente_tcp_undo_cwnd (fst (fst once)) (snd (fst once)) in
  fst (fst twice) = fst (fst once) /\
  snd (fst twice) = snd (fst once) /\
  snd twice = snd once.
Proof.
  cbv zeta. unfold ente_tcp_undo_cwnd, max_u, set_snd_cwnd, set_in_slow_start.
  cbn.
  assert (Hmax : Z.max (Z.max (snd_cwnd tp) (prior_cwnd ca)) (prior_cwnd ca)
                 = Z.max (snd_cwnd tp) (prior_cwnd ca)) by lia.
  rewrite !Hmax. repeat split.
Qed.

(** * Further properties *)

(** ** The ring buffer, cell by cell *)

Lemma stored_sample_valid tp : valid_sample (stored_sample tp).
Proof.
  unfold valid_sample, stored_sample, min_t. cbv zeta.
  change (u32 65535) with 65535.
  pose proof (u32_range (sampled_rtt_us tp / 1000)) as Hr.
  destruct (Z.eqb_spec (Z.min (u32 (sampled_rtt_us tp / 1000)) 65535) 0).
  - rewrite u16_small; lia.
  - rewrite u16_small; lia.
Qed.

(** What one acknowledgment does to the buffer. *)
Lemma record_sample_buffer tp ca acked :
  rtt_history (record_sample tp ca acked)
  = <[Z.to_nat (history_index ca) := stored_sample tp]> (rtt_history ca) /\
  history_index (record_sample tp ca acked)
  = u16 ((history_index ca + 1) mod ENTROPY_WINDOW_SIZE) /\
  history_count (record_sample tp ca acked)
  = if history_count ca <? ENTROPY_WINDOW_SIZE
    then u16 (history_count ca + 1) else history_count ca.
Proof.
  unfold record_sample, stored_sample, sampled_rtt_us. cbv zeta.
  destruct (Z.shiftr (srtt_us tp) 3 =? 0); destruct (_ <? min_rtt_us _);
    cbn [history_count set_min_rtt_us set_packets_acked set_rtt_history
         set_history_index set_history_count rtt_history history_index];
    destruct (history_count ca <? ENTROPY_WINDOW_SIZE); repeat split.
Qed.

Lemma recompute_buffer ca :
  rtt_history (recompute ca) = rtt_history ca /\
  history_index (recompute ca) = history_index ca /\
  history_count (recompute ca) = history_count ca.
Proof.
  unfold recompute. cbv zeta.
  set (c := set_shannon_entropy _ ca).
  destruct (stats_buffer c) as (Hh & Hi & Hn).
  split_ifs; cbn; rewrite Hh, Hi, Hn; repeat split.
Qed.

Lemma periodic_recompute_buffer ca :
  rtt_history (periodic_recompute ca) = rtt_history ca /\
  history_index (periodic_recompute ca) = history_index ca /\
  history_count (periodic_recompute ca) = history_count ca.
Proof.
  unfold periodic_recompute. destruct (_ >=? _); [apply recompute_buffer|repeat split].
Qed.

(** The buffer after an acknowledgment that carries segments. *)
Lemma cong_avoid_buffer tp ca ack acked :
  acked <> 0 ->
  let ca' := fst (ente_tcp_cong_avoid tp ca ack acked) in
  rtt_history ca' = <[Z.to_nat (history_index ca) := stored_sample tp]> (rtt_history ca) /\
  history_index ca' = u16 ((history_index ca + 1) mod ENTROPY_WINDOW_SIZE) /\
  history_count ca'
  = if history_count ca <? ENTROPY_WINDOW_SIZE
    then u16 (history_count ca + 1) else history_count ca.
Proof.
  intros Hacked. cbv zeta. rewrite cong_avoid_state.
  destruct (Z.eqb_spec acked 0) as [?|_]; [contradiction|]. cbv zeta.
  cbn [rtt_history history_index history_count set_in_slow_start].
  destruct (periodic_recompute_buffer (record_sample tp ca acked)) as (-> & -> & ->).
  apply record_sample_buffer.
Qed.

Lemma cong_avoid_written_prefix tp ca ack acked :
  buffer_ok ca -> written_prefix ca ->
  written_prefix (fst (ente_tcp_cong_avoid tp ca ack acked)).
Proof.
  intros (Hlen & Hidx & Hcnt) [Hbelow Hall].
  destruct (Z.eqb_spec acked 0) as [->|Hacked]; [split; assumption|].
  destruct (cong_avoid_buffer tp ca ack acked Hacked) as (Hh & Hi & Hc).
  cbv zeta in Hh, Hi, Hc.
  unfold written_prefix, rtt_at, ENTROPY_WINDOW_SIZE in *.
  rewrite Hh, Hi, Hc. clear Hh Hi Hc.
  set (k := Z.to_nat (history_index ca)).
  assert (Hk : (k < length (rtt_history ca))%nat) by lia.
  pose proof (stored_sample_valid tp) as Hv.
  assert (Hcell : forall i : nat,
             valid_sample (rtt_history ca !!! i) \/ i = k ->
             valid_sample (<[k := stored_sample tp]> (rtt_history ca) !!! i)).
  { intros i Hi. destruct (Nat.eq_dec i k) as [->|Hne].
    - now rewrite list_lookup_total_insert_eq.
    - rewrite list_lookup_total_insert_ne by congruence. destruct Hi; [assumption|lia]. }
  pose proof (Z.mod_pos_bound (history_index ca + 1) 16 ltac:(lia)) as Hmod.
  rewrite (u16_small ((history_index ca + 1) mod 16)) by lia.
  destruct (Z.eq_dec (history_index ca) 15) as [Hlast|Hnot].
  - rewrite Hlast. change ((15 + 1) mod 16) with 0. split; [intros i Hi; lia|].
    right. intros i Hi. apply Hcell.
    destruct (Nat.eq_dec i k); [now right|left].
    destruct Hall as [_|Hall]; [apply Hbelow; lia|now apply Hall].
  - rewrite Z.mod_small by lia. split.
    + intros i Hi. apply Hcell.
      destruct (Nat.eq_dec i k); [now right|left]. apply Hbelow. lia.
    + destruct Hall as [Hle|Hall].
      * left. destruct (Z.ltb_spec (history_count ca) 16); [rewrite u16_small|]; lia.
      * right. intros i Hi. apply Hcell. left. now apply Hall.
Qed.

Lemma step_written_prefix ca e ca' :
  step ca e = Some ca' -> buffer_ok ca -> written_prefix ca -> written_prefix ca'.
Proof.
  destruct e as [tp|tp ack acked|tp|ev|ext|st]; intros Hstep Hok H.
  - injection Hstep as <-. exact H.
  - apply step_cong_avoid in Hstep. subst ca'. now apply cong_avoid_written_prefix.
  - injection Hstep as <-. exact H.
  - injection Hstep as <-. destruct ev; try exact H.
    destruct H as [Hbelow _]. destruct Hok as (_ & Hidx & _).
    split; [exact Hbelow|]. left. cbn. lia.
  - injection Hstep as <-. exact H.
  - injection Hstep as <-. destruct st; exact H.
Qed.

Lemma reachable_written_prefix ca : reachable ca -> written_prefix ca.
Proof.
  induction 1 as [tp|ca e ca' Hr IH Hstep].
  - split; [cbn; intros i Hi; lia|left; cbn; lia].
  - eapply step_written_prefix; eauto using reachable_buffer_ok.
Qed.

(** ** The interval counter *)

Lemma stages_packets_acked tp ca acked :
  0 <= packets_acked (periodic_recompute (record_sample tp ca acked)) < ENTROPY_CALC_INTERVAL.
Proof.
  unfold periodic_recompute, ENTROPY_CALC_INTERVAL.
  destruct (Z.geb_spec (packets_acked (record_sample tp ca acked)) 8) as [Hge|Hlt].
  - rewrite recompute_packets_acked. lia.
  - rewrite record_sample_packets_acked in *.
    pose proof (u16_range (packets_acked ca + acked)). lia.
Qed.

Lemma step_packets_acked ca e ca' :
  step ca e = Some ca' ->
  0 <= packets_acked ca < ENTROPY_CALC_INTERVAL ->
  0 <= packets_acked ca' < ENTROPY_CALC_INTERVAL.
Proof.
  destruct e as [tp|tp ack acked|tp|ev|ext|st]; intros Hstep H.
  - injection Hstep as <-. exact H.
  - apply step_cong_avoid in Hstep. subst ca'. rewrite cong_avoid_state.
    destruct (acked =? 0); [exact H|]. cbv zeta.
    cbn [packets_acked set_in_slow_start]. apply stages_packets_acked.
  - injection Hstep as <-. exact H.
  - injection Hstep as <-. destruct ev; exact H.
  - injection Hstep as <-. exact H.
  - injection Hstep as <-. destruct st; exact H.
Qed.

(** X1.  In every state a connection can reach, the RTT ring buffer keeps
    its shape: 16 cells, the write index within [0, 16), the sample count
    within [0, 16]. *)
Theorem ring_buffer_in_shape (ca : ente_tcp) : reachable ca -> buffer_ok ca.
Proof. apply reachable_buffer_ok. Qed.

Lemma ring_buffer_in_shape_witness : buffer_ok jittery.
Proof. apply (ring_buffer_in_shape jittery). apply jittery_reachable. Defined.

(** X2.  In every reachable state the noise flag and the congestion flag
    are not both set: the three flags always encode exactly one of NoData,
    Noise, Congestion, Neutral. *)
Theorem verdict_flags_exclusive (ca : ente_tcp) :
  reachable ca -> is_noise ca && is_congestion ca = false.
Proof. apply reachable_flags_exclusive. Qed.

Lemma verdict_flags_exclusive_witness : is_noise steady && is_congestion steady = false.
Proof. apply (verdict_flags_exclusive steady). apply steady_reachable. Defined.

(** X3.  In every reachable state the acknowledged-packet counter is below
    the recomputation interval: an acknowledgment that brings it to 8 or
    more recomputes at once and resets it. *)
Theorem counter_below_interval (ca : ente_tcp) :
  reachable ca -> 0 <= packets_acked ca < ENTROPY_CALC_INTERVAL.
Proof.
  induction 1 as [tp|ca e ca' _ IH Hstep].
  - cbn. unfold ENTROPY_CALC_INTERVAL. lia.
  - eapply step_packets_acked; eauto.
Qed.

Lemma counter_below_interval_witness : 0 <= packets_acked jittery < ENTROPY_CALC_INTERVAL.
Proof. apply (counter_below_interval jittery). apply jittery_reachable. Defined.

(** X4.  In every reachable state, every cell the estimator reads (index
    below [history_count]) holds a sample that an acknowledgment stored: a
    value between 1 and 65535, never a cell left at zero by [init].  This
    holds across idle restarts, which reset the count but not the index. *)
Theorem window_cells_are_samples (ca : ente_tcp) :
  reachable ca ->
  forall i : nat, Z.of_nat i < history_count ca -> 1 <= rtt_at ca i <= 65535.
Proof.
  intros Hr i Hi.
  destruct (reachable_buffer_ok ca Hr) as (_ & _ & Hcnt).
  destruct (reachable_written_prefix ca Hr) as [Hbelow [Hle|Hall]].
  - apply Hbelow. lia.
  - apply Hall. unfold ENTROPY_WINDOW_SIZE in Hcnt. lia.
Qed.

Lemma window_cells_are_samples_witness : 1 <= rtt_at jittery 3 <= 65535.
Proof.
  apply (window_cells_are_samples jittery jittery_reachable 3%nat).
  vm_compute. reflexivity.
Defined.

(** ** Sequences of acknowledgments *)

Lemma effective_cons_zero a acks : snd a = 0 -> effective (a :: acks) = effective acks.
Proof.
  intros H. unfold effective. rewrite filter_cons.
  destruct (decide (snd a <> 0)); [contradiction|reflexivity].
Qed.

Lemma effective_cons_nonzero a acks :
  snd a <> 0 -> effective (a :: acks) = a :: effective acks.
Proof.
  intros H. unfold effective. rewrite filter_cons.
  destruct (decide (snd a <> 0)); [reflexivity|contradiction].
Qed.

Lemma step_ack_zero a ca : snd a = 0 -> step ca (ack_event a) = Some ca.
Proof. intros H. unfold ack_event. rewrite H. reflexivity. Qed.

Lemma record_sample_min_rtt_exact tp ca acked :
  min_rtt_us (record_sample tp ca acked) = Z.min (min_rtt_us ca) (sampled_rtt_us tp).
Proof.
  unfold record_sample, sampled_rtt_us. cbv zeta.
  destruct (Z.shiftr (srtt_us tp) 3 =? 0);
    match goal with
    | |- context [?a <? min_rtt_us ?c] => destruct (Z.ltb_spec a (min_rtt_us c))
    end; split_ifs; cbn in *; lia.
Qed.

Lemma cong_avoid_min_rtt_exact tp ca ack acked :
  acked <> 0 ->
  min_rtt_us (fst (ente_tcp_cong_avoid tp ca ack acked))
  = Z.min (min_rtt_us ca) (sampled_rtt_us tp).
Proof.
  intros Hacked. rewrite cong_avoid_state.
  destruct (Z.eqb_spec acked 0) as [?|_]; [contradiction|]. cbv zeta.
  cbn [min_rtt_us set_in_slow_start]. unfold periodic_recompute.
  destruct (_ >=? _); rewrite ?recompute_min_rtt_us; apply record_sample_min_rtt_exact.
Qed.

Lemma fold_min_start (m s : Z) (l : list Z) :
  fold_right Z.min (Z.min m s) l = Z.min s (fold_right Z.min m l).
Proof. induction l as [|x l IH]; cbn [fold_right]; lia. Qed.

(** X5.  Over any sequence of acknowledgments that runs to completion, the
    write index advances by one, modulo 16, for each acknowledgment that
    carries segments, and the sample count grows by one for each, saturating
    at 16; acknowledgments with [acked = 0] do not count. *)
Theorem ring_advances (acks : list (tcp_sock * Z * Z)) :
  forall ca ca' : ente_tcp,
    0 <= history_index ca < ENTROPY_WINDOW_SIZE ->
    0 <= history_count ca <= ENTROPY_WINDOW_SIZE ->
    run ca (map ack_event acks) = Some ca' ->
    history_index ca'
    = (history_index ca + Z.of_nat (length (effective acks))) mod ENTROPY_WINDOW_SIZE /\
    history_count ca'
    = Z.min (history_count ca + Z.of_nat (length (effective acks))) ENTROPY_WINDOW_SIZE.
Proof.
  unfold ENTROPY_WINDOW_SIZE.
  induction acks as [|a acks IH]; intros ca ca' Hidx Hcnt Hrun; cbn [map run] in Hrun.
  - injection Hrun as <-.
    change (Z.of_nat (length (effective []))) with 0.
    rewrite Z.add_0_r, Z.mod_small by lia. lia.
  - destruct (Z.eq_dec (snd a) 0) as [Hz|Hnz].
    + rewrite step_ack_zero in Hrun by assumption.
      rewrite effective_cons_zero by assumption. now apply IH.
    + destruct (step ca (ack_event a)) as [c|] eqn:Hstep; [|discriminate].
      unfold ack_event in Hstep. apply step_cong_avoid in Hstep.
      destruct (cong_avoid_buffer (fst (fst a)) ca (snd (fst a)) (snd a) Hnz)
        as (_ & Hi & Hc).
      cbv zeta in Hi, Hc. rewrite <- Hstep in Hi, Hc. unfold ENTROPY_WINDOW_SIZE in *.
      pose proof (Z.mod_pos_bound (history_index ca + 1) 16 ltac:(lia)) as Hmod.
      rewrite u16_small in Hi by lia.
      assert (Hc' : history_count c = Z.min (history_count ca + 1) 16).
      { rewrite Hc. destruct (Z.ltb_spec (history_count ca) 16);
          [rewrite u16_small|]; lia. }
      destruct (IH c ca') as [IHi IHc]; [lia|lia|assumption|].
      rewrite effective_cons_nonzero by assumption. cbn [length].
      rewrite Nat2Z.inj_succ. split.
      * rewrite IHi, Hi, Z.add_mod_idemp_l by lia. f_equal. lia.
      * rewrite IHc, Hc'. lia.
Qed.

Lemma ring_advances_witness :
  let acks := [(host 10 TCP_INFINITE_SSTHRESH 30, 0, 1);
               (host 11 TCP_INFINITE_SSTHRESH 20, 0, 0);
               (host 13 TCP_INFINITE_SSTHRESH 40, 0, 5)] in
  history_index (after jittery (map ack_event acks)) = 10 /\
  history_count (after jittery (map ack_event acks)) = 10.
Proof.
  cbv zeta.
  apply (ring_advances
           [(host 10 TCP_INFINITE_SSTHRESH 30, 0, 1);
            (host 11 TCP_INFINITE_SSTHRESH 20, 0, 0);
            (host 13 TCP_INFINITE_SSTHRESH 40, 0, 5)] jittery).
  - vm_compute. split; [discriminate|reflexivity].
  - vm_compute. split; discriminate.
  - vm_compute. reflexivity.
Defined.

(** X6.  Over any sequence of acknowledgments that runs to completion,
    [min_rtt_us] ends as the minimum of its starting value and the RTTs
    ([srtt_us >> 3], at least 1) of the acknowledgments that carry
    segments. *)
Theorem min_rtt_is_minimum (acks : list (tcp_sock * Z * Z)) :
  forall ca ca' : ente_tcp,
    run ca (map ack_event acks) = Some ca' ->
    min_rtt_us ca'
    = fold_right Z.min (min_rtt_us ca)
        (map (fun a => sampled_rtt_us (fst (fst a))) (effective acks)).
Proof.
  induction acks as [|a acks IH]; intros ca ca' Hrun; cbn [map run] in Hrun.
  - now injection Hrun as <-.
  - destruct (Z.eq_dec (snd a) 0) as [Hz|Hnz].
    + rewrite step_ack_zero in Hrun by assumption.
      rewrite effective_cons_zero by assumption. now apply IH.
    + destruct (step ca (ack_event a)) as [c|] eqn:Hstep; [|discriminate].
      unfold ack_event in Hstep. apply step_cong_avoid in Hstep.
      rewrite effective_cons_nonzero by assumption. cbn [map fold_right].
      rewrite (IH c ca' Hrun), Hstep, cong_avoid_min_rtt_exact by assumption.
      apply fold_min_start.
Qed.

Lemma min_rtt_is_minimum_witness :
  min_rtt_us (after fresh (map ack_event
    [(host 10 TCP_INFINITE_SSTHRESH 30, 0, 1);
     (host 11 TCP_INFINITE_SSTHRESH 20, 0, 2);
     (host 12 TCP_INFINITE_SSTHRESH 5, 0, 0);
     (host 13 TCP_INFINITE_SSTHRESH 40, 0, 1)])) = 20000.
Proof.
  apply (min_rtt_is_minimum
           [(host 10 TCP_INFINITE_SSTHRESH 30, 0, 1);
            (host 11 TCP_INFINITE_SSTHRESH 20, 0, 2);
            (host 12 TCP_INFINITE_SSTHRESH 5, 0, 0);
            (host 13 TCP_INFINITE_SSTHRESH 40, 0, 1)] fresh).
  vm_compute. reflexivity.
Defined.

(** ** The estimator saturates

    With 8 to 16 samples every non-empty bin has a scaled probability of at
    least 62500, so its [log_p] is at least 6000 and the accumulated sum is
    at least 4000: after the division by 4 the clamp always applies. *)

Lemma bin_term_bound total h :
  8 <= total <= 16 -> 1 <= h <= total ->
  4000 * h <= bin_term total h * total /\ 0 <= bin_term total h <= 10000.
Proof.
  intros Ht Hh.
  assert (Hcases : total = 8 \/ total = 9 \/ total = 10 \/ total = 11 \/ total = 12 \/
                   total = 13 \/ total = 14 \/ total = 15 \/ total = 16) by lia.
  assert (Hh' : h = 1 \/ h = 2 \/ h = 3 \/ h = 4 \/ h = 5 \/ h = 6 \/ h = 7 \/ h = 8 \/
                h = 9 \/ h = 10 \/ h = 11 \/ h = 12 \/ h = 13 \/ h = 14 \/ h = 15 \/ h = 16)
    by lia.
  repeat (destruct Hcases as [->|Hcases]);
    try subst total;
    repeat (destruct Hh' as [->|Hh']); try subst h;
    try lia; vm_compute; (split; [|split]); discriminate.
Qed.

Lemma entropy_fold_lower total (hs : list Z) : forall acc,
  8 <= total <= 16 ->
  Forall (fun h => 0 <= h <= total) hs ->
  0 <= acc -> acc + 10000 * Z.of_nat (length hs) < 18446744073709551616 ->
  let r := fold_left (fun e h => if h >? 0 then u64 (e + bin_term total h) else e) hs acc in
  acc * total + 4000 * list_sum hs <= r * total /\ r <= acc + 10000 * Z.of_nat (length hs).
Proof.
  intros acc Ht Hhs. revert acc. cbv zeta.
  induction Hhs as [|h hs Hh _ IH]; intros acc Hacc Hroom.
  - cbn. lia.
  - cbn [fold_left length] in *. rewrite list_sum_cons.
    destruct (Z.gtb_spec h 0) as [Hpos|Hzero].
    + destruct (bin_term_bound total h Ht ltac:(lia)) as (Hlow & H0 & H1).
      rewrite u64_small by lia.
      destruct (IH (acc + bin_term total h)) as [IH1 IH2]; [lia|lia|]. split; nia.
    + destruct (IH acc) as [IH1 IH2]; [lia|lia|]. split; nia.
Qed.

Lemma list_sum_nonneg (l : list Z) : Forall (fun x => 0 <= x) l -> 0 <= list_sum l.
Proof. induction 1; rewrite ?list_sum_cons; cbn; lia. Qed.

Lemma list_sum_insert (l : list Z) : forall (i : nat) (x : Z),
  (i < length l)%nat -> list_sum (<[i := x]> l) = list_sum l - l !!! i + x.
Proof.
  induction l as [|y l IH]; intros i x Hi; cbn [length] in Hi; [lia|].
  destruct i as [|i].
  - change (<[0%nat := x]> (y :: l)) with (x :: l).
    change ((y :: l) !!! 0%nat) with y.
    rewrite !list_sum_cons. lia.
  - change (<[S i := x]> (y :: l)) with (y :: <[i := x]> l).
    change ((y :: l) !!! S i) with (l !!! i).
    rewrite !list_sum_cons, IH by lia. lia.
Qed.

Lemma lookup_le_sum (l : list Z) : forall i : nat,
  (i < length l)%nat ->
  Forall (fun x => 0 <= x) l -> 0 <= l !!! i <= list_sum l.
Proof.
  induction l as [|y l IH]; intros i Hi Hl; cbn [length] in Hi; [lia|].
  - inversion Hl as [|? ? Hy Hl']; subst. rewrite list_sum_cons.
    pose proof (list_sum_nonneg l Hl').
    destruct i as [|i]; [change ((y :: l) !!! 0%nat) with y; lia|].
    change ((y :: l) !!! S i) with (l !!! i). specialize (IH i ltac:(lia) Hl'). lia.
Qed.

Lemma histogram_fold ca min_val range (idx : list nat) : forall h,
  length h = 16%nat ->
  Forall (fun x => 0 <= x) h ->
  list_sum h + Z.of_nat (length idx) < 4294967296 ->
  let h' := fold_left (histogram_step ca min_val range) idx h in
  length h' = 16%nat /\ Forall (fun x => 0 <= x) h' /\
  list_sum h' = list_sum h + Z.of_nat (length idx).
Proof.
  cbv zeta. induction idx as [|i idx IH]; intros h Hlen Hpos Hroom.
  - cbn [fold_left length]. repeat split; auto; lia.
  - cbn [fold_left length] in *.
    unfold histogram_step at 2 4 6. cbv zeta.
    set (b := Z.to_nat (min_t u16 _ (HISTOGRAM_BINS - 1))).
    assert (Hb : (b < 16)%nat).
    { unfold b, min_t, HISTOGRAM_BINS. change (u16 (16 - 1)) with 15.
      match goal with |- context [Z.min (u16 ?x) 15] => pose proof (u16_range x) end.
      lia. }
    destruct (lookup_le_sum h b ltac:(lia) Hpos) as [Hlo Hhi].
    rewrite (u32_small (h !!! b + 1)) by lia.
    destruct (IH (<[b := h !!! b + 1]> h)) as (H1 & H2 & H3).
    + now rewrite length_insert.
    + apply Forall_insert; [assumption|lia].
    + rewrite list_sum_insert by lia. lia.
    + repeat split; try assumption. rewrite H3, list_sum_insert by lia. lia.
Qed.

Lemma entropy_tail_saturates ca min_val range count :
  8 <= count <= 16 ->
  let idx := seq 0 (Z.to_nat count) in
  let histogram :=
    fold_left (histogram_step ca min_val range) idx (replicate (Z.to_nat HISTOGRAM_BINS) 0) in
  let entropy :=
    fold_left (entropy_step histogram count) (seq 0 (Z.to_nat HISTOGRAM_BINS)) 0 in
  u32 (min_t u64 (entropy / 4) 1000) = 1000.
Proof.
  intros Hc. cbv zeta.
  change (Z.to_nat HISTOGRAM_BINS) with 16%nat.
  destruct (histogram_fold ca min_val range (seq 0 (Z.to_nat count)) (replicate 16 0))
    as (Hlen & Hpos & Hsum).
  - reflexivity.
  - apply Forall_replicate. lia.
  - rewrite length_seq. change (list_sum (replicate 16 0)) with 0. lia.
  - set (h := fold_left _ _ (replicate 16 0)) in *.
    rewrite length_seq in Hsum. change (list_sum (replicate 16 0)) with 0 in Hsum.
    assert (Hbins : Forall (fun x => 0 <= x <= count) h).
    { apply Forall_lookup. intros i x Hix.
      pose proof (lookup_lt_Some _ _ _ Hix) as Hi.
      pose proof (lookup_le_sum h i Hi Hpos) as Hle.
      rewrite (list_lookup_total_correct _ _ _ Hix) in Hle. lia. }
    change (fold_left (entropy_step h count) (seq 0 16) 0)
      with (fold_left (fun e i =>
                         (fun e x => if x >? 0 then u64 (e + bin_term count x) else e)
                           e (h !!! i)) (seq 0 16) 0).
    rewrite (fold_indices _ h 16 0) by lia.
    rewrite take_ge by lia.
    destruct (entropy_fold_lower count h 0 Hc Hbins) as [Hlow Hhigh]; [lia|lia|].
    cbv zeta in Hlow, Hhigh. rewrite Hlen in Hhigh.
    set (r := fold_left _ h 0) in *.
    assert (4000 <= r <= 160000) by nia.
    unfold min_t. change (u64 1000) with 1000.
    assert (1000 <= r / 4 < 18446744073709551616).
    { split; [apply Z.div_le_lower_bound; lia | apply Z.div_lt_upper_bound; lia]. }
    rewrite (u64_small (r / 4)) by lia.
    rewrite Z.min_r by lia. reflexivity.
Qed.

Lemma calculate_entropy_two_valued ca :
  0 <= history_count ca < 4294967296 ->
  calculate_entropy ca = 0 \/ calculate_entropy ca = 1000.
Proof.
  intros Hhc. unfold calculate_entropy.
  destruct (Z.ltb_spec (history_count ca) 8); [now left|].
  cbv zeta.
  match goal with |- context [if ?c then _ else _] => destruct c end; [now left|].
  right. apply entropy_tail_saturates.
  unfold min_t, ENTROPY_WINDOW_SIZE. rewrite u32_small by lia. change (u32 16) with 16. lia.
Qed.

(** The first loop leaves every inspected sample between the two results,
    and the results within the bounds of what it has seen. *)
Lemma min_max_fold ca (lo hi : Z) (idx : list nat) : forall a b,
  lo <= a <= hi -> lo <= b <= hi -> a <= b ->
  (forall i, In i idx -> lo <= rtt_at ca i <= hi) ->
  let mm := fold_left (min_max_step ca) idx (a, b) in
  lo <= fst mm /\ fst mm <= a /\ b <= snd mm /\ snd mm <= hi /\
  (forall i, In i idx -> fst mm <= rtt_at ca i <= snd mm).
Proof.
  cbv zeta. induction idx as [|i idx IH]; intros a b Ha Hb Hab Hall.
  - cbn. repeat split; try lia; intros ? [].
  - cbn [fold_left].
    change (min_max_step ca (a, b) i)
      with (if rtt_at ca i <? a then rtt_at ca i else a,
            if rtt_at ca i >? b then rtt_at ca i else b).
    pose proof (Hall i (or_introl eq_refl)) as Hi.
    set (a' := if rtt_at ca i <? a then rtt_at ca i else a).
    set (b' := if rtt_at ca i >? b then rtt_at ca i else b).
    assert (Ha' : a' <= a /\ a' <= rtt_at ca i /\ lo <= a' <= hi).
    { unfold a'. destruct (Z.ltb_spec (rtt_at ca i) a); lia. }
    assert (Hb' : b <= b' /\ rtt_at ca i <= b' /\ lo <= b' <= hi).
    { unfold b'. destruct (Z.gtb_spec (rtt_at ca i) b); lia. }
    clearbody a' b'.
    destruct (IH a' b') as (H1 & H2 & H3 & H4 & H5); [lia|lia|lia| |].
    + intros j Hj. apply Hall. now right.
    + split; [lia|]. split; [lia|]. split; [lia|]. split; [lia|].
      intros j [<-|Hj]; [lia|]. apply H5, Hj.
Qed.

(** X7.  With at least 8 stored samples, each a 16-bit value, of which two
    differ, [calculate_entropy] returns 1000 - whatever the distribution.
    Together with the zero cases this makes the estimator two-valued: 0 for
    a short or constant window, 1000 for any other. *)
Theorem entropy_saturates (ca : ente_tcp) :
  8 <= history_count ca < 65536 ->
  (forall i : nat,
      (i < Z.to_nat (min_t u32 (history_count ca) ENTROPY_WINDOW_SIZE))%nat ->
      0 <= rtt_at ca i < 65536) ->
  (exists i j : nat,
      (i < Z.to_nat (min_t u32 (history_count ca) ENTROPY_WINDOW_SIZE))%nat /\
      (j < Z.to_nat (min_t u32 (history_count ca) ENTROPY_WINDOW_SIZE))%nat /\
      rtt_at ca i <> rtt_at ca j) ->
  calculate_entropy ca = 1000.
Proof.
  intros Hhc Hrange (i & j & Hi & Hj & Hne).
  assert (Hcount : 8 <= min_t u32 (history_count ca) ENTROPY_WINDOW_SIZE <= 16).
  { unfold min_t, ENTROPY_WINDOW_SIZE. rewrite u32_small by lia.
    change (u32 16) with 16. lia. }
  unfold calculate_entropy.
  destruct (Z.ltb_spec (history_count ca) 8); [lia|]. cbv zeta.
  set (count := min_t u32 (history_count ca) ENTROPY_WINDOW_SIZE) in *.
  destruct (min_max_fold ca 0 65535 (seq 0 (Z.to_nat count)) (rtt_at ca 0) (rtt_at ca 0))
    as (H1 & H2 & H3 & H4 & H5).
  - specialize (Hrange 0%nat ltac:(lia)). lia.
  - specialize (Hrange 0%nat ltac:(lia)). lia.
  - lia.
  - intros k Hk. apply in_seq in Hk. specialize (Hrange k ltac:(lia)). lia.
  - cbv zeta in H1, H2, H3, H4, H5.
    set (mm := fold_left (min_max_step ca) (seq 0 (Z.to_nat count)) _) in *.
    pose proof (H5 i ltac:(apply in_seq; lia)) as Hmi.
    pose proof (H5 j ltac:(apply in_seq; lia)) as Hmj.
    rewrite (u16_small (snd mm - fst mm)) by lia.
    destruct (Z.eqb_spec (snd mm - fst mm) 0) as [Heq|_]; [lia|].
    now apply entropy_tail_saturates.
Qed.

Lemma entropy_saturates_witness : calculate_entropy jittery = 1000.
Proof.
  apply (entropy_saturates jittery).
  - vm_compute. split; [discriminate|reflexivity].
  - change (Z.to_nat (min_t u32 (history_count jittery) ENTROPY_WINDOW_SIZE)) with 8%nat.
    intros i Hi.
    do 8 (destruct i as [|i]; [vm_compute; split; [discriminate|reflexivity]|]). lia.
  - exists 0%nat, 1%nat.
    change (Z.to_nat (min_t u32 (history_count jittery) ENTROPY_WINDOW_SIZE)) with 8%nat.
    split; [lia|]. split; [lia|]. vm_compute. discriminate.
Defined.

Lemma recompute_two_valued ca : buffer_ok ca -> two_valued (recompute ca).
Proof.
  intros (_ & _ & Hcnt). unfold ENTROPY_WINDOW_SIZE in Hcnt.
  unfold two_valued. rewrite recompute_classification, recompute_shannon_entropy.
  destruct (calculate_entropy_two_valued ca) as [-> | ->]; [lia| |].
  - split; [now left|discriminate].
  - split; [now right|discriminate].
Qed.

Lemma record_sample_two_valued tp ca acked :
  two_valued ca -> two_valued (record_sample tp ca acked).
Proof.
  unfold two_valued, classification.
  rewrite record_sample_shannon_entropy.
  destruct (record_sample_flags tp ca acked) as (-> & -> & ->). auto.
Qed.

Lemma cong_avoid_two_valued tp ca ack acked :
  buffer_ok ca -> two_valued ca ->
  two_valued (fst (ente_tcp_cong_avoid tp ca ack acked)).
Proof.
  intros Hok H. rewrite cong_avoid_state. destruct (acked =? 0); [exact H|].
  cbv zeta.
  change (two_valued (periodic_recompute (record_sample tp ca acked))).
  unfold periodic_recompute. destruct (_ >=? _).
  - apply recompute_two_valued. now apply record_sample_buffer_ok.
  - now apply record_sample_two_valued.
Qed.

Lemma step_two_valued ca e ca' :
  step ca e = Some ca' -> buffer_ok ca -> two_valued ca -> two_valued ca'.
Proof.
  destruct e as [tp|tp ack acked|tp|ev|ext|st]; intros Hstep Hok H.
  - injection Hstep as <-. exact H.
  - apply step_cong_avoid in Hstep. subst ca'. now apply cong_avoid_two_valued.
  - injection Hstep as <-. exact H.
  - injection Hstep as <-. destruct ev; try exact H.
    destruct H as [Hscore _]. split; [exact Hscore|discriminate].
  - injection Hstep as <-. exact H.
  - injection Hstep as <-. destruct st; exact H.
Qed.

(** X8.  In every reachable state the stored score is 0 or 1000 and the
    classification is NoData, Noise or Congestion: the Neutral verdict
    (a score from 400 to 700) is never produced. *)
Theorem neutral_is_never_reached (ca : ente_tcp) :
  reachable ca ->
  (shannon_entropy ca = 0 \/ shannon_entropy ca = 1000) /\
  classification ca <> Neutral.
Proof.
  induction 1 as [tp|ca e ca' Hr IH Hstep].
  - split; [now left|discriminate].
  - eapply step_two_valued; eauto using reachable_buffer_ok.
Qed.

Lemma neutral_is_never_reached_witness :
  (shannon_entropy jittery = 0 \/ shannon_entropy jittery = 1000) /\
  classification jittery <> Neutral.
Proof. apply (neutral_is_never_reached jittery). apply jittery_reachable. Defined.

(** ** Loss and undo *)

Lemma ssthresh_value tp ca :
  snd (ente_tcp_ssthresh tp ca)
  = Z.max (snd_cwnd tp / (if classification ca is Noise then 3 else 2)) 2.
Proof.
  unfold ente_tcp_ssthresh, classification. cbv zeta.
  cbn [fst snd has_entropy_data is_noise is_congestion set_loss_event
       set_ssthresh set_prior_cwnd ssthresh].
  destruct (has_entropy_data ca), (is_noise ca), (is_congestion ca); reflexivity.
Qed.

(** X9.  For a non-negative window the threshold returned on loss is at
    least 2 and at most [max(cwnd, 2)]; and in a state classified Noise it
    is never larger than in any other state at the same window: dividing by
    3 cuts deeper than dividing by 2. *)
Theorem ssthresh_bounds (tp : tcp_sock) (ca cb : ente_tcp) :
  0 <= snd_cwnd tp ->
  2 <= snd (ente_tcp_ssthresh tp ca) <= Z.max (snd_cwnd tp) 2 /\
  (classification ca = Noise ->
   snd (ente_tcp_ssthresh tp ca) <= snd (ente_tcp_ssthresh tp cb)).
Proof.
  intros Hw. rewrite !ssthresh_value.
  assert (H3 : 0 <= snd_cwnd tp / 3 <= snd_cwnd tp / 2).
  { split; [apply Z.div_pos; lia|apply Z.div_le_compat_l; lia]. }
  assert (H2 : snd_cwnd tp / 2 <= snd_cwnd tp) by (apply Z.div_le_upper_bound; lia).
  split.
  - destruct (classification ca); lia.
  - intros ->. destruct (classification cb); lia.
Qed.

Lemma ssthresh_bounds_witness :
  2 <= snd (ente_tcp_ssthresh (host 30 TCP_INFINITE_SSTHRESH 10) jittery) <= 30 /\
  snd (ente_tcp_ssthresh (host 30 TCP_INFINITE_SSTHRESH 10) jittery)
  <= snd (ente_tcp_ssthresh (host 30 TCP_INFINITE_SSTHRESH 10) steady).
Proof.
  assert (Hw : 0 <= snd_cwnd (host 30 TCP_INFINITE_SSTHRESH 10)) by (vm_compute; discriminate).
  destruct (ssthresh_bounds (host 30 TCP_INFINITE_SSTHRESH 10) jittery steady Hw)
    as [Hrange Horder].
  split; [exact Hrange|]. apply Horder. vm_compute. reflexivity.
Defined.

(** X10.  A loss at a window of at least 2 followed by an undo, whatever
    the host has made of the window in between: the undo returns and
    restores [max(current window, window at the loss)], which is at least
    the window at the loss, and leaves the connection out of slow start. *)
Theorem undo_after_loss (tp tp' : tcp_sock) (ca : ente_tcp) :
  2 <= snd_cwnd tp ->
  let r := ente_tcp_undo_cwnd tp' (fst (ente_tcp_ssthresh tp ca)) in
  snd r = Z.max (snd_cwnd tp') (snd_cwnd tp) /\
  snd_cwnd (fst (fst r)) = snd r /\
  snd_cwnd tp <= snd r /\
  in_slow_start (snd (fst r)) = false.
Proof.
  intros Hw. cbv zeta.
  pose proof (ssthresh_value tp ca) as Hv.
  unfold ente_tcp_undo_cwnd, ente_tcp_ssthresh, max_u in *. cbv zeta in *.
  cbn [fst snd snd_cwnd set_snd_cwnd prior_cwnd set_prior_cwnd set_ssthresh
       set_loss_event ssthresh in_slow_start set_in_slow_start] in *.
  rewrite Hv.
  assert (H3 : snd_cwnd tp / 3 <= snd_cwnd tp) by (apply Z.div_le_upper_bound; lia).
  assert (H2 : snd_cwnd tp / 2 <= snd_cwnd tp) by (apply Z.div_le_upper_bound; lia).
  repeat split; try lia.
  apply Z.ltb_ge. destruct (classification ca); lia.
Qed.

Lemma undo_after_loss_witness :
  let r := ente_tcp_undo_cwnd (host 10 TCP_INFINITE_SSTHRESH 10)
             (fst (ente_tcp_ssthresh (host 30 TCP_INFINITE_SSTHRESH 10) jittery)) in
  snd r = 30 /\ in_slow_start (snd (fst r)) = false.
Proof.
  cbv zeta.
  assert (Hw : 2 <= snd_cwnd (host 30 TCP_INFINITE_SSTHRESH 10)) by (vm_compute; discriminate).
  destruct (undo_after_loss (host 30 TCP_INFINITE_SSTHRESH 10)
              (host 10 TCP_INFINITE_SSTHRESH 10) jittery Hw) as (Hret & _ & _ & Hphase).
  split; [exact Hret|exact Hphase].
Defined.

(** ** The diagnostic fields do not steer

    [min_rtt_us], [rtt_variance], [avg_rtt_us] and [loss_event] are written
    but never read by a decision. *)

Ltac fields :=
  cbn [min_rtt_us prior_cwnd ssthresh rtt_history history_index history_count
       shannon_entropy packets_acked rtt_variance avg_rtt_us has_entropy_data
       in_slow_start is_noise is_congestion loss_event
       set_min_rtt_us set_prior_cwnd set_ssthresh set_rtt_history set_history_index
       set_history_count set_shannon_entropy set_packets_acked set_has_entropy_data
       set_in_slow_start set_is_noise set_is_congestion set_loss_event set_stats
       fst snd] in *.

Ltac same_control a b H :=
  destruct a, b; unfold control in H; fields; injection H as; subst.

Lemma calculate_entropy_control a b : control a = control b ->
  calculate_entropy a = calculate_entropy b.
Proof.
  intros H. same_control a b H.
  unfold calculate_entropy, min_max_step, histogram_step, rtt_at. fields. reflexivity.
Qed.

Lemma update_rtt_stats_control ca : control (update_rtt_stats ca) = control ca.
Proof. unfold update_rtt_stats. cbv zeta. destruct (_ <? 4); reflexivity. Qed.

Lemma recompute_control a b : control a = control b ->
  control (recompute a) = control (recompute b).
Proof.
  intros H. pose proof (calculate_entropy_control a b H) as He.
  unfold recompute. cbv zeta. rewrite He.
  set (s := u16 (calculate_entropy b)).
  assert (H1 : control (update_rtt_stats (set_shannon_entropy s a))
             = control (update_rtt_stats (set_shannon_entropy s b))).
  { rewrite !update_rtt_stats_control. same_control a b H. reflexivity. }
  revert H1.
  generalize (update_rtt_stats (set_shannon_entropy s a)).
  generalize (update_rtt_stats (set_shannon_entropy s b)).
  clear. intros b a H. same_control a b H. unfold control. fields.
  split_ifs; reflexivity.
Qed.

Lemma record_sample_control tp a b acked : control a = control b ->
  control (record_sample tp a acked) = control (record_sample tp b acked).
Proof.
  intros H. same_control a b H. unfold record_sample, control. cbv zeta.
  repeat (fields;
          match goal with
          | |- context [if ?c then _ else _] =>
              lazymatch c with
              | context [if _ then _ else _] => fail
              | _ => destruct c eqn:?
              end
          end);
    fields; first [reflexivity | discriminate].
Qed.

Lemma growth_call_control tp a b ack acked : control a = control b ->
  growth_call tp a ack acked = growth_call tp b ack acked.
Proof. intros H. same_control a b H. reflexivity. Qed.

(** X11.  Two states that agree on every field but [min_rtt_us],
    [rtt_variance], [avg_rtt_us] and [loss_event] get the same growth call
    from [ente_tcp_cong_avoid], the same threshold from [ente_tcp_ssthresh]
    and the same window from [ente_tcp_undo_cwnd], and agree again
    afterwards: those four fields influence no decision. *)
Theorem diagnostics_do_not_steer (tp : tcp_sock) (a b : ente_tcp) (ack acked : Z) :
  control a = control b ->
  (snd (ente_tcp_cong_avoid tp a ack acked) = snd (ente_tcp_cong_avoid tp b ack acked) /\
   control (fst (ente_tcp_cong_avoid tp a ack acked))
   = control (fst (ente_tcp_cong_avoid tp b ack acked))) /\
  (snd (ente_tcp_ssthresh tp a) = snd (ente_tcp_ssthresh tp b) /\
   control (fst (ente_tcp_ssthresh tp a)) = control (fst (ente_tcp_ssthresh tp b))) /\
  (snd (ente_tcp_undo_cwnd tp a) = snd (ente_tcp_undo_cwnd tp b) /\
   fst (fst (ente_tcp_undo_cwnd tp a)) = fst (fst (ente_tcp_undo_cwnd tp b)) /\
   control (snd (fst (ente_tcp_undo_cwnd tp a)))
   = control (snd (fst (ente_tcp_undo_cwnd tp b)))).
Proof.
  intros H. split; [|split].
  - destruct (Z.eqb_spec acked 0) as [->|Hne].
    + rewrite !cong_avoid_zero. cbn [fst snd]. auto.
    + rewrite !cong_avoid_stages by assumption. cbv zeta. cbn [fst snd].
      assert (H1 : control (periodic_recompute (record_sample tp a acked))
                 = control (periodic_recompute (record_sample tp b acked))).
      { pose proof (record_sample_control tp a b acked H) as Hr.
        unfold periodic_recompute.
        replace (packets_acked (record_sample tp a acked))
          with (packets_acked (record_sample tp b acked))
          by (rewrite !record_sample_packets_acked; same_control a b H; reflexivity).
        destruct (_ >=? _); [now apply recompute_control|assumption]. }
      revert H1.
      generalize (periodic_recompute (record_sample tp a acked)).
      generalize (periodic_recompute (record_sample tp b acked)).
      intros b1 a1 H1.
      assert (H2 : control (set_in_slow_start (snd_cwnd tp <? ssthresh a1) a1)
                 = control (set_in_slow_start (snd_cwnd tp <? ssthresh b1) b1))
        by (same_control a1 b1 H1; reflexivity).
      split; [now apply growth_call_control|exact H2].
  - same_control a b H. split; reflexivity.
  - same_control a b H. repeat split; reflexivity.
Qed.

Lemma diagnostics_do_not_steer_witness :
  let tp := host 20 TCP_INFINITE_SSTHRESH 10 in
  let other := set_loss_event true (set_min_rtt_us 1 jittery) in
  snd (ente_tcp_cong_avoid tp jittery 0 8) = snd (ente_tcp_cong_avoid tp other 0 8) /\
  snd (ente_tcp_ssthresh tp jittery) = snd (ente_tcp_ssthresh tp other).
Proof.
  cbv zeta.
  assert (Hsame : control jittery = control (set_loss_event true (set_min_rtt_us 1 jittery)))
    by reflexivity.
  destruct (diagnostics_do_not_steer (host 20 TCP_INFINITE_SSTHRESH 10) jittery
              (set_loss_event true (set_min_rtt_us 1 jittery)) 0 8 Hsame)
    as ((Hcall & _) & (Hthresh & _) & _).
  split; [exact Hcall|exact Hthresh].
Defined.

(** ** Between recomputations *)

Lemma record_sample_diagnostics tp ca acked :
  loss_event (record_sample tp ca acked) = loss_event ca /\
  rtt_variance (record_sample tp ca acked) = rtt_variance ca /\
  avg_rtt_us (record_sample tp ca acked) = avg_rtt_us ca.
Proof. unfold record_sample. cbv zeta. split_ifs; auto. Qed.

(** An acknowledgment short of the interval leaves verdict and statistics. *)
Lemma verdict_frozen_between_core (tp : tcp_sock) (ca : ente_tcp) (ack acked : Z) :
  acked <> 0 ->
  u16 (packets_acked ca + acked) < ENTROPY_CALC_INTERVAL ->
  let ca' := fst (ente_tcp_cong_avoid tp ca ack acked) in
  packets_acked ca' = u16 (packets_acked ca + acked) /\
  shannon_entropy ca' = shannon_entropy ca /\
  classification ca' = classification ca /\
  loss_event ca' = loss_event ca /\
  rtt_variance ca' = rtt_variance ca /\
  avg_rtt_us ca' = avg_rtt_us ca.
Proof.
  intros Hacked Hbelow. cbv zeta. rewrite cong_avoid_state.
  destruct (Z.eqb_spec acked 0) as [?|_]; [contradiction|]. cbv zeta.
  unfold periodic_recompute. rewrite record_sample_packets_acked.
  destruct (Z.geb_spec (u16 (packets_acked ca + acked)) ENTROPY_CALC_INTERVAL); [lia|].
  unfold classification.
  cbn [packets_acked shannon_entropy has_entropy_data is_noise is_congestion
       loss_event rtt_variance avg_rtt_us set_in_slow_start].
  rewrite record_sample_packets_acked, record_sample_shannon_entropy.
  destruct (record_sample_flags tp ca acked) as (-> & -> & ->).
  destruct (record_sample_diagnostics tp ca acked) as (-> & -> & ->).
  repeat split.
Qed.

(** X12.  An acknowledgment that leaves the 16-bit counter below 8 only
    records its sample: the counter takes the wrapped sum, and the score,
    the classification, [loss_event] and the RTT statistics stay as they
    were.  The sum wraps modulo 65536, so an acknowledgment covering 65536
    segments or more can pass without a recomputation. *)
Theorem verdict_frozen_between (tp : tcp_sock) (ca : ente_tcp) (ack acked : Z) :
  acked <> 0 ->
  u16 (packets_acked ca + acked) < ENTROPY_CALC_INTERVAL ->
  let ca' := fst (ente_tcp_cong_avoid tp ca ack acked) in
  packets_acked ca' = u16 (packets_acked ca + acked) /\
  shannon_entropy ca' = shannon_entropy ca /\
  classification ca' = classification ca /\
  loss_event ca' = loss_event ca /\
  rtt_variance ca' = rtt_variance ca /\
  avg_rtt_us ca' = avg_rtt_us ca.
Proof. apply verdict_frozen_between_core. Qed.

Lemma verdict_frozen_between_witness :
  let ca' := fst (ente_tcp_cong_avoid (host 10 TCP_INFINITE_SSTHRESH 10) steady 0 65537) in
  packets_acked ca' = 1 /\ classification ca' = Congestion.
Proof.
  cbv zeta.
  assert (Hacked : 65537 <> 0) by discriminate.
  assert (Hbelow : u16 (packets_acked steady + 65537) < ENTROPY_CALC_INTERVAL)
    by (vm_compute; reflexivity).
  destruct (verdict_frozen_between (host 10 TCP_INFINITE_SSTHRESH 10) steady 0 65537
              Hacked Hbelow) as (Hcount & _ & Hclass & _).
  split; [exact Hcount|exact Hclass].
Defined.

(** ** Growth amounts and the divide error *)

Lemma wrapped_window_zero cwnd :
  0 <= cwnd < 2 ^ 32 -> (u32 (cwnd * 1000) = 0 <-> cwnd mod 536870912 = 0).
Proof.
  intros Hc. unfold u32, wrap. change (2 ^ 32) with (536870912 * 8) in *.
  rewrite !Z.mod_divide by lia.
  replace (cwnd * 1000) with (cwnd * 125 * 8) by lia.
  rewrite Z.mul_divide_cancel_r by lia.
  split.
  - intros H. apply (Z.gauss 536870912 125 cwnd).
    + now rewrite Z.mul_comm.
    + reflexivity.
  - intros H. now apply Z.divide_mul_l.
Qed.

Lemma scaled_delta_none acked factor cwnd :
  scaled_delta acked factor cwnd = None <-> u32 (cwnd * 1000) = 0.
Proof.
  unfold scaled_delta. cbv zeta.
  destruct (Z.eqb_spec (u32 (cwnd * 1000)) 0); split; intros H;
    try reflexivity; try assumption; try discriminate; contradiction.
Qed.

Lemma scaled_delta_at_least_one acked factor cwnd d :
  scaled_delta acked factor cwnd = Some d -> 1 <= d.
Proof.
  unfold scaled_delta, max_u. cbv zeta.
  destruct (u32 (cwnd * 1000) =? 0); [discriminate|]. intros [= <-]. lia.
Qed.

Lemma growth_call_divide_error tp ca ack acked :
  growth_call tp ca ack acked = divide_error <->
  in_slow_start ca = false /\
  (classification ca = Congestion \/ classification ca = Noise) /\
  u32 (snd_cwnd tp * 1000) = 0.
Proof.
  unfold growth_call, classification, ai_call.
  pose proof (scaled_delta_none acked CONGESTION_CONSERVE (snd_cwnd tp)) as Hc.
  pose proof (scaled_delta_none acked NOISE_AGGRESSION (snd_cwnd tp)) as Hn.
  destruct (in_slow_start ca), (has_entropy_data ca), (is_noise ca), (is_congestion ca);
    cbn [andb];
    try destruct (scaled_delta acked CONGESTION_CONSERVE (snd_cwnd tp)) eqn:Ec;
    try destruct (scaled_delta acked NOISE_AGGRESSION (snd_cwnd tp)) eqn:En;
    split; intros H; try discriminate H;
    try (destruct H as (H1 & H2 & H3); try discriminate H1;
         try (destruct H2 as [H2|H2]; discriminate H2);
         try (apply Hc in H3; discriminate H3);
         try (apply Hn in H3; discriminate H3));
    try reflexivity;
    repeat split; auto;
    try (apply Hc; reflexivity); try (apply Hn; reflexivity).
Qed.

(** X13.  For a window that fits 32 bits, an acknowledgment with
    [acked > 0] ends in a division by zero exactly when the connection is
    past slow start, the classification is Congestion or Noise, and the
    window is a multiple of [2^29] segments (0 included), so that
    [snd_cwnd * 1000] wraps to 0.  Any window from 1 to [2^29 - 1] is
    safe. *)
Theorem divide_error_exactly (tp : tcp_sock) (ca : ente_tcp) (ack acked : Z) :
  0 < acked ->
  0 <= snd_cwnd tp < 2 ^ 32 ->
  let ca' := fst (ente_tcp_cong_avoid tp ca ack acked) in
  let call := snd (ente_tcp_cong_avoid tp ca ack acked) in
  (call = divide_error <->
   in_slow_start ca' = false /\
   (classification ca' = Congestion \/ classification ca' = Noise) /\
   snd_cwnd tp mod 536870912 = 0) /\
  (0 < snd_cwnd tp < 536870912 -> call <> divide_error).
Proof.
  intros Hacked Hw. cbv zeta.
  rewrite cong_avoid_stages by lia. cbv zeta. cbn [fst snd].
  rewrite growth_call_divide_error, (wrapped_window_zero (snd_cwnd tp) Hw).
  split; [reflexivity|].
  intros Hsafe (_ & _ & Hmod). rewrite Z.mod_small in Hmod; lia.
Qed.

Lemma divide_error_exactly_witness :
  snd (ente_tcp_cong_avoid (host 536870912 TCP_INFINITE_SSTHRESH 10) steady_after_loss 0 3)
  = divide_error /\
  snd (ente_tcp_cong_avoid (host 20 TCP_INFINITE_SSTHRESH 10) steady_after_loss 0 3)
  <> divide_error.
Proof.
  assert (Hacked : 0 < 3) by lia.
  split.
  - assert (Hw : 0 <= snd_cwnd (host 536870912 TCP_INFINITE_SSTHRESH 10) < 2 ^ 32)
      by (vm_compute; split; [discriminate|reflexivity]).
    destruct (divide_error_exactly (host 536870912 TCP_INFINITE_SSTHRESH 10)
                steady_after_loss 0 3 Hacked Hw) as [[_ Hif] _].
    apply Hif. vm_compute. repeat split. now left.
  - assert (Hw : 0 <= snd_cwnd (host 20 TCP_INFINITE_SSTHRESH 10) < 2 ^ 32)
      by (vm_compute; split; [discriminate|reflexivity]).
    destruct (divide_error_exactly (host 20 TCP_INFINITE_SSTHRESH 10)
                steady_after_loss 0 3 Hacked Hw) as [_ Hsafe].
    apply Hsafe. vm_compute. split; reflexivity.
Defined.

(** X14.  For an acknowledgment with [acked > 0] in a state whose verdict
    flags are exclusive: a slow-start step is never more than [acked], and
    it is 0 - no growth at all - exactly when the classification is
    Congestion and a single segment is acknowledged; an increment handed to
    [tcp_cong_avoid_ai] goes with the current window and is at least 1. *)
Theorem growth_amounts (tp : tcp_sock) (ca : ente_tcp) (ack acked : Z) :
  flags_exclusive ca ->
  0 < acked ->
  let ca' := fst (ente_tcp_cong_avoid tp ca ack acked) in
  let call := snd (ente_tcp_cong_avoid tp ca ack acked) in
  (forall s, call = tcp_slow_start s ->
             0 <= s <= acked /\
             (s = 0 <-> classification ca' = Congestion /\ acked = 1)) /\
  (forall w d, call = tcp_cong_avoid_ai w d -> w = snd_cwnd tp /\ 1 <= d).
Proof.
  intros Hex Hacked. cbv zeta.
  rewrite cong_avoid_stages by lia. cbv zeta. cbn [fst snd].
  pose proof (stages_flags_exclusive tp ca acked Hex) as Hex1.
  revert Hex1. generalize (periodic_recompute (record_sample tp ca acked)).
  intros ca1 Hex1.
  set (ca2 := set_in_slow_start (snd_cwnd tp <? ssthresh ca1) ca1).
  assert (Hex2 : flags_exclusive ca2) by exact Hex1.
  clearbody ca2. clear ca1 Hex1.
  assert (Hhalf : 0 <= acked / 2 <= acked /\ (acked / 2 = 0 <-> acked = 1)).
  { split; [split; [apply Z.div_pos; lia|apply Z.div_le_upper_bound; lia]|].
    split; intros H; [|subst; reflexivity].
    assert (acked < 2); [|lia].
    destruct (Z.lt_ge_cases acked 2) as [|Hge]; [assumption|].
    pose proof (Z.div_le_mono 2 acked 2 ltac:(lia) Hge) as Hd.
    change (2 / 2) with 1 in Hd. lia. }
  destruct (in_slow_start ca2) eqn:Hss.
  - destruct (growth_call_slow_start tp ca2 ack acked Hex2 Hss) as [Hc Hn].
    split.
    + intros s Hcall.
      destruct (classification ca2) eqn:Hclass.
      * rewrite Hn in Hcall by discriminate. injection Hcall as <-.
        split; [lia|]. split; [lia|intros [? _]; discriminate].
      * rewrite Hn in Hcall by discriminate. injection Hcall as <-.
        split; [lia|]. split; [lia|intros [? _]; discriminate].
      * rewrite Hc in Hcall by reflexivity. injection Hcall as <-.
        split; [lia|]. split; [intros H; split; [reflexivity|now apply Hhalf]|].
        intros [_ H]. now apply Hhalf.
      * rewrite Hn in Hcall by discriminate. injection Hcall as <-.
        split; [lia|]. split; [lia|intros [? _]; discriminate].
    + intros w d Hcall.
      destruct (classification ca2) eqn:Hclass;
        first [rewrite Hn in Hcall by discriminate | rewrite Hc in Hcall by reflexivity];
        discriminate Hcall.
  - split.
    + intros s Hcall. unfold growth_call, ai_call in Hcall. rewrite Hss in Hcall.
      repeat match type of Hcall with
             | context [if ?c then _ else _] => destruct c
             | context [match ?o with Some _ => _ | None => _ end] => destruct o
             end; discriminate Hcall.
    + intros w d Hcall. unfold growth_call, ai_call in Hcall. rewrite Hss in Hcall.
      repeat match type of Hcall with
             | context [if ?c then _ else _] => destruct c
             | context [match ?o with Some _ => _ | None => _ end] =>
                 destruct o eqn:Hdelta
             end; try discriminate Hcall;
        injection Hcall as <- <-; (split; [reflexivity|]);
        eapply scaled_delta_at_least_one; eassumption.
Qed.

Lemma growth_amounts_witness :
  snd (ente_tcp_cong_avoid (host 10 TCP_INFINITE_SSTHRESH 10) steady 0 1) = tcp_slow_start 0 /\
  classification (fst (ente_tcp_cong_avoid (host 10 TCP_INFINITE_SSTHRESH 10) steady 0 1))
  = Congestion.
Proof.
  assert (Hex : flags_exclusive steady) by reflexivity.
  assert (Hacked : 0 < 1) by lia.
  destruct (growth_amounts (host 10 TCP_INFINITE_SSTHRESH 10) steady 0 1 Hex Hacked)
    as [Hss _].
  assert (Hcall : snd (ente_tcp_cong_avoid (host 10 TCP_INFINITE_SSTHRESH 10) steady 0 1)
                  = tcp_slow_start (1 / 2)) by (vm_compute; reflexivity).
  destruct (Hss (1 / 2) Hcall) as [_ [Hzero _]].
  split; [exact Hcall|]. now apply Hzero.
Defined.

(** ** What the statistics report *)

Lemma window_length ca :
  length (rtt_history ca) = 16%nat ->
  4 <= history_count ca < 65536 ->
  4 <= min_t u32 (history_count ca) ENTROPY_WINDOW_SIZE <= 16 /\
  Z.of_nat (length (window ca)) = min_t u32 (history_count ca) ENTROPY_WINDOW_SIZE.
Proof.
  intros Hlen Hcount.
  assert (Hc : 4 <= min_t u32 (history_count ca) ENTROPY_WINDOW_SIZE <= 16).
  { unfold min_t, ENTROPY_WINDOW_SIZE. rewrite (u32_small (history_count ca)) by lia.
    change (u32 16) with 16. lia. }
  split; [exact Hc|]. unfold window. rewrite length_take. lia.
Qed.

Lemma update_rtt_stats_mean ca :
  length (rtt_history ca) = 16%nat ->
  4 <= history_count ca < 65536 ->
  Forall (fun x => 0 <= x < 65536) (window ca) ->
  avg_rtt_us (update_rtt_stats ca)
  = list_sum (window ca) / Z.of_nat (length (window ca)) * 1000 /\
  0 <= list_sum (window ca) / Z.of_nat (length (window ca)) < 65536.
Proof.
  intros Hlen Hcount Hrange.
  destruct (window_length ca Hlen Hcount) as [Hc Hw]. rewrite Hw.
  unfold update_rtt_stats.
  destruct (Z.ltb_spec (history_count ca) 4) as [?|_]; [lia|].
  cbv zeta. cbn [avg_rtt_us set_stats].
  unfold window in *.
  set (count := min_t u32 (history_count ca) ENTROPY_WINDOW_SIZE) in *.
  set (n := Z.to_nat count) in *.
  assert (Hn : (n <= length (rtt_history ca))%nat) by lia.
  set (w := take n (rtt_history ca)) in *.
  assert (Hb : 0 <= list_sum w <= count * 65535).
  { pose proof (list_sum_bounds 0 65535 w) as Hb. rewrite Hw in Hb.
    destruct Hb; [|lia]. eapply Forall_impl; [exact Hrange|]. cbn. lia. }
  assert (Hsum : fold_left (sum_step ca) (seq 0 n) 0 = list_sum w).
  { unfold sum_step, rtt_at.
    rewrite (fold_indices (fun s x => u32 (s + x)) (rtt_history ca) n 0 Hn).
    fold w. rewrite fold_sum_exact.
    - lia.
    - eapply Forall_impl; [exact Hrange|]. cbn. lia.
    - lia.
    - lia. }
  rewrite Hsum.
  assert (Havg : 0 <= list_sum w / count < 65536).
  { split; [apply Z.div_pos; lia|apply Z.div_lt_upper_bound; lia]. }
  split; [|exact Havg]. apply u32_small. lia.
Qed.

(** X15.  When the window has 4 to 16 samples, each a 16-bit value, none
    further than 46340 ms from their integer mean, [update_rtt_stats]
    stores exactly the mean squared deviation of the window: no product and
    no sum wraps. *)
Theorem variance_exact_in_range (ca : ente_tcp) :
  length (rtt_history ca) = 16%nat ->
  4 <= history_count ca < 65536 ->
  Forall (fun x => 0 <= x < 65536) (window ca) ->
  Forall (fun x =>
            Z.abs (x - list_sum (window ca) / Z.of_nat (length (window ca))) <= 46340)
         (window ca) ->
  rtt_variance (update_rtt_stats ca) = spec_mean_squared_deviation (window ca).
Proof. apply update_rtt_stats_exact. Qed.

Lemma variance_exact_in_range_witness : rtt_variance (update_rtt_stats jittery) = 506.
Proof.
  rewrite variance_exact_in_range.
  - vm_compute. reflexivity.
  - reflexivity.
  - change (history_count jittery) with 8. lia.
  - change (window jittery) with [5; 50; 5; 50; 5; 50; 5; 50].
    repeat constructor; lia.
  - change (window jittery) with [5; 50; 5; 50; 5; 50; 5; 50].
    change (list_sum _ / _) with 27.
    repeat constructor; lia.
Defined.

(** X16.  When the window has 4 to 16 samples, each a 16-bit value, and the
    host asks for the Vegas-shaped record (bit 2 of [ext] set), the record
    read after [update_rtt_stats] carries in [tcpv_rtt] the integer mean of
    the window in milliseconds - the trip through microseconds in
    [avg_rtt_us] loses nothing - and in [tcpv_rttcnt] the sample count. *)
Theorem reported_mean_rtt (ca : ente_tcp) (ext : Z) :
  length (rtt_history ca) = 16%nat ->
  4 <= history_count ca < 65536 ->
  Forall (fun x => 0 <= x < 65536) (window ca) ->
  Z.testbit ext 2 = true ->
  exists info : tcpvegas_info,
    ente_tcp_get_info (update_rtt_stats ca) ext = Some info /\
    tcpv_rtt info = list_sum (window ca) / Z.of_nat (length (window ca)) /\
    tcpv_rttcnt info = history_count ca.
Proof.
  intros Hlen Hcount Hrange Hbit.
  destruct (update_rtt_stats_mean ca Hlen Hcount Hrange) as [Hmean Hbound].
  unfold ente_tcp_get_info, INET_DIAG_VEGASINFO.
  change (Z.shiftl 1 (3 - 1)) with (2 ^ 2).
  destruct (Z.eqb_spec (Z.land ext (2 ^ 2)) 0) as [Hzero|_].
  - assert (Hcontra : Z.testbit (Z.land ext (2 ^ 2)) 2 = true).
    { rewrite Z.land_spec, Hbit. reflexivity. }
    rewrite Hzero in Hcontra. discriminate Hcontra.
  - eexists. split; [reflexivity|]. cbn [tcpv_rtt tcpv_rttcnt]. split.
    + rewrite Hmean. apply Z.div_mul. lia.
    + apply stats_history_count.
Qed.

Lemma reported_mean_rtt_witness :
  exists info : tcpvegas_info,
    ente_tcp_get_info (update_rtt_stats jittery) 4 = Some info /\
    tcpv_rtt info = 27 /\ tcpv_rttcnt info = 8.
Proof.
  destruct (reported_mean_rtt jittery 4) as (info & Hget & Hrtt & Hcnt).
  - reflexivity.
  - change (history_count jittery) with 8. lia.
  - change (window jittery) with [5; 50; 5; 50; 5; 50; 5; 50].
    repeat constructor; lia.
  - reflexivity.
  - exists info. split; [exact Hget|]. split; [exact Hrtt|exact Hcnt].
Defined.

(** ** Idle restart *)

(** X17.  An idle restart zeroes the count but keeps the write index.  So
    when the index is not 0, the first acknowledgment after the restart
    stores its sample at the index, outside the window: the window then has
    the single cell 0, still holding what it held before the restart. *)
Theorem restart_keeps_write_index (tp : tcp_sock) (ca : ente_tcp) (ack acked : Z) :
  buffer_ok ca ->
  0 < history_index ca ->
  acked <> 0 ->
  let ca' :=
    fst (ente_tcp_cong_avoid tp (ente_tcp_cwnd_event ca CA_EVENT_CWND_RESTART) ack acked) in
  history_count ca' = 1 /\
  rtt_at ca' (Z.to_nat (history_index ca)) = stored_sample tp /\
  window ca' = [rtt_at ca 0].
Proof.
  intros (Hlen & Hidx & Hcnt) Hpos Hacked. cbv zeta.
  unfold ENTROPY_WINDOW_SIZE in *.
  set (r := ente_tcp_cwnd_event ca CA_EVENT_CWND_RESTART).
  assert (Hr : rtt_history r = rtt_history ca /\ history_index r = history_index ca /\
               history_count r = 0) by repeat split.
  destruct Hr as (Hrh & Hri & Hrc).
  destruct (cong_avoid_buffer tp r ack acked Hacked) as (Hh & _ & Hc).
  cbv zeta in Hh, Hc. rewrite Hrh, Hri in Hh. rewrite Hrc in Hc.
  change (if 0 <? ENTROPY_WINDOW_SIZE then u16 (0 + 1) else 0) with 1 in Hc.
  unfold window, rtt_at. rewrite Hh, Hc.
  change (Z.to_nat (min_t u32 1 ENTROPY_WINDOW_SIZE)) with 1%nat.
  split; [reflexivity|]. split.
  - apply list_lookup_total_insert_eq. lia.
  - destruct (rtt_history ca) as [|x l] eqn:Hl; [cbn in Hlen; lia|].
    destruct (Z.to_nat (history_index ca)) as [|k] eqn:Hk; [lia|].
    reflexivity.
Qed.

Lemma restart_keeps_write_index_witness :
  let ca' :=
    fst (ente_tcp_cong_avoid (host 10 TCP_INFINITE_SSTHRESH 70)
           (ente_tcp_cwnd_event jittery CA_EVENT_CWND_RESTART) 0 1) in
  history_count ca' = 1 /\ rtt_at ca' 8 = 70 /\ window ca' = [5].
Proof.
  cbv zeta.
  apply (restart_keeps_write_index (host 10 TCP_INFINITE_SSTHRESH 70) jittery 0 1).
  - apply reachable_buffer_ok, jittery_reachable.
  - vm_compute. reflexivity.
  - discriminate.
Defined.

(** ** What the estimator reads *)

Lemma fold_left_agree {A B} (f g : A -> B -> A) (l : list B) : forall a,
  (forall acc x, In x l -> f acc x = g acc x) ->
  fold_left f l a = fold_left g l a.
Proof.
  induction l as [|x l IH]; intros a H; [reflexivity|].
  cbn [fold_left]. rewrite (H a x) by now left.
  apply IH. intros acc y Hy. apply H. now right.
Qed.

(** X18.  [calculate_entropy] reads nothing but [history_count] and the
    first [min(history_count, 16)] cells of the buffer: two states that
    agree on those get the same score, whatever the remaining cells and
    fields hold. *)
Theorem entropy_reads_window_only (a b : ente_tcp) :
  history_count a = history_count b ->
  (forall i : nat,
      (i < Z.to_nat (min_t u32 (history_count a) ENTROPY_WINDOW_SIZE))%nat ->
      rtt_at a i = rtt_at b i) ->
  calculate_entropy a = calculate_entropy b.
Proof.
  intros Hcount Hcells. unfold calculate_entropy. rewrite <- Hcount.
  destruct (history_count a <? 8); [reflexivity|]. cbv zeta.
  set (n := Z.to_nat (min_t u32 (history_count a) ENTROPY_WINDOW_SIZE)) in *.
  clearbody n.
  destruct (Nat.eq_dec n 0%nat) as [->|Hn].
  - cbn [seq fold_left fst snd]. rewrite !Z.sub_diag. reflexivity.
  - assert (Hin : forall i, In i (seq 0 n) -> rtt_at a i = rtt_at b i).
    { intros i Hi. apply in_seq in Hi. apply Hcells. lia. }
    rewrite (Hcells 0%nat) by lia.
    rewrite (fold_left_agree (min_max_step a) (min_max_step b)).
    2:{ intros acc i Hi. unfold min_max_step. now rewrite (Hin i Hi). }
    set (mm := fold_left (min_max_step b) _ _).
    destruct (_ =? 0); [reflexivity|].
    rewrite (fold_left_agree (histogram_step a (fst mm) (u16 (snd mm - fst mm)))
                             (histogram_step b (fst mm) (u16 (snd mm - fst mm)))).
    2:{ intros acc i Hi. unfold histogram_step. now rewrite (Hin i Hi). }
    reflexivity.
Qed.

Lemma entropy_reads_window_only_witness :
  calculate_entropy (set_rtt_history (<[12%nat := 999]> (rtt_history jittery)) jittery)
  = calculate_entropy jittery.
Proof.
  apply entropy_reads_window_only.
  - vm_compute. reflexivity.
  - intros i Hi.
    assert (Hi' : (i < 8)%nat) by exact Hi.
    do 8 (destruct i as [|i]; [vm_compute; reflexivity|]). lia.
Defined.

(** ** The loss mark *)

(** X19.  Once [loss_event] is set, no callback clears it but an
    acknowledgment that triggers the recomputation: every other event -
    loss, undo, restart, state change, diagnostics, an acknowledgment short
    of the interval - leaves it set. *)
Theorem loss_mark_persists (ca ca' : ente_tcp) (e : event) :
  loss_event ca = true ->
  step ca e = Some ca' ->
  loss_event ca' = true \/
  exists tp ack acked,
    e = ev_cong_avoid tp ack acked /\ acked <> 0 /\
    ENTROPY_CALC_INTERVAL <= u16 (packets_acked ca + acked).
Proof.
  intros Hset Hstep.
  destruct e as [tp|tp ack acked|tp|ev|ext|st].
  - injection Hstep as <-. now left.
  - apply step_cong_avoid in Hstep. subst ca'.
    destruct (Z.eq_dec acked 0) as [->|Hacked]; [left; exact Hset|].
    destruct (Z.lt_ge_cases (u16 (packets_acked ca + acked)) ENTROPY_CALC_INTERVAL)
      as [Hlt|Hge].
    + left.
      destruct (verdict_frozen_between_core tp ca ack acked Hacked Hlt) as (_ & _ & _ & -> & _).
      exact Hset.
    + right. exists tp, ack, acked. auto.
  - injection Hstep as <-. now left.
  - injection Hstep as <-. left. destruct ev; try exact Hset; reflexivity.
  - injection Hstep as <-. now left.
  - injection Hstep as <-. left. destruct st; try exact Hset; reflexivity.
Qed.

Lemma loss_mark_persists_witness :
  loss_event (after steady_after_loss [ev_undo_cwnd (host 4 TCP_INFINITE_SSTHRESH 10)]) = true.
Proof.
  destruct (loss_mark_persists steady_after_loss
              (after steady_after_loss [ev_undo_cwnd (host 4 TCP_INFINITE_SSTHRESH 10)])
              (ev_undo_cwnd (host 4 TCP_INFINITE_SSTHRESH 10)))
    as [Hkept|(tp & ack & acked & Hev & _)].
  - reflexivity.
  - reflexivity.
  - exact Hkept.
  - discriminate Hev.
Defined.

(** ** The snapshot taken at a loss *)

Lemma stats_thresholds ca :
  prior_cwnd (update_rtt_stats ca) = prior_cwnd ca /\
  ssthresh (update_rtt_stats ca) = ssthresh ca.
Proof. unfold update_rtt_stats. cbv zeta. split_ifs; auto. Qed.

Lemma recompute_thresholds ca :
  prior_cwnd (recompute ca) = prior_cwnd ca /\ ssthresh (recompute ca) = ssthresh ca.
Proof.
  unfold recompute. cbv zeta.
  set (c := set_shannon_entropy _ ca).
  destruct (stats_thresholds c) as [Hp Hs].
  split_ifs; cbn; rewrite Hp, Hs; auto.
Qed.

Lemma record_sample_thresholds tp ca acked :
  prior_cwnd (record_sample tp ca acked) = prior_cwnd ca /\
  ssthresh (record_sample tp ca acked) = ssthresh ca.
Proof. unfold record_sample. cbv zeta. split_ifs; auto. Qed.

Lemma step_thresholds ca e ca' :
  is_ssthresh e = false ->
  step ca e = Some ca' ->
  prior_cwnd ca' = prior_cwnd ca /\ ssthresh ca' = ssthresh ca.
Proof.
  destruct e as [tp|tp ack acked|tp|ev|ext|st]; intros He Hstep; try discriminate He.
  - apply step_cong_avoid in Hstep. subst ca'. rewrite cong_avoid_state.
    destruct (acked =? 0); [auto|]. cbv zeta.
    cbn [prior_cwnd ssthresh set_in_slow_start]. unfold periodic_recompute.
    destruct (_ >=? _).
    + destruct (recompute_thresholds (record_sample tp ca acked)) as [-> ->].
      apply record_sample_thresholds.
    + apply record_sample_thresholds.
  - injection Hstep as <-. auto.
  - injection Hstep as <-. destruct ev; auto.
  - injection Hstep as <-. auto.
  - injection Hstep as <-. destruct st; auto.
Qed.

Lemma run_thresholds (es : list event) : forall ca ca',
  Forall (fun e => is_ssthresh e = false) es ->
  run ca es = Some ca' ->
  prior_cwnd ca' = prior_cwnd ca /\ ssthresh ca' = ssthresh ca.
Proof.
  induction es as [|e es IH]; intros ca ca' Hes Hrun; cbn [run] in Hrun.
  - injection Hrun as <-. auto.
  - inversion Hes as [|? ? He Hes']; subst.
    destruct (step ca e) as [c|] eqn:Hstep; [|discriminate].
    destruct (step_thresholds ca e c He Hstep) as [<- <-]. now apply IH.
Qed.

(** X20.  The window snapshot and the threshold taken at a loss are
    touched by no other callback.  So after a loss and any further events
    short of another loss - acknowledgments, recomputations, restarts,
    state changes - an undo still returns [max(current window, window at
    that loss)], and the stored threshold is still the one returned then. *)
Theorem undo_restores_loss_window (tp tp' : tcp_sock) (ca c : ente_tcp) (es : list event) :
  Forall (fun e => is_ssthresh e = false) es ->
  run (fst (ente_tcp_ssthresh tp ca)) es = Some c ->
  snd (ente_tcp_undo_cwnd tp' c) = Z.max (snd_cwnd tp') (snd_cwnd tp) /\
  ssthresh c = snd (ente_tcp_ssthresh tp ca).
Proof.
  intros Hes Hrun.
  destruct (run_thresholds es _ c Hes Hrun) as [Hp Hs].
  assert (Hsnap : prior_cwnd (fst (ente_tcp_ssthresh tp ca)) = snd_cwnd tp) by reflexivity.
  assert (Hthr : ssthresh (fst (ente_tcp_ssthresh tp ca)) = snd (ente_tcp_ssthresh tp ca))
    by reflexivity.
  unfold ente_tcp_undo_cwnd, max_u. cbv zeta.
  cbn [fst snd snd_cwnd set_snd_cwnd prior_cwnd set_in_slow_start].
  rewrite Hp, Hs, Hsnap, Hthr. split; [lia|reflexivity].
Qed.

Lemma undo_restores_loss_window_witness :
  snd (ente_tcp_undo_cwnd (host 12 TCP_INFINITE_SSTHRESH 10)
         (after (fst (ente_tcp_ssthresh (host 30 TCP_INFINITE_SSTHRESH 10) jittery))
            [ev_cong_avoid (host 10 TCP_INFINITE_SSTHRESH 10) 0 8;
             ev_cwnd_event CA_EVENT_CWND_RESTART;
             ev_set_state TCP_CA_Loss])) = 30.
Proof.
  set (es := [ev_cong_avoid (host 10 TCP_INFINITE_SSTHRESH 10) 0 8;
              ev_cwnd_event CA_EVENT_CWND_RESTART;
              ev_set_state TCP_CA_Loss]).
  set (c := after (fst (ente_tcp_ssthresh (host 30 TCP_INFINITE_SSTHRESH 10) jittery)) es).
  assert (Hes : Forall (fun e => is_ssthresh e = false) es) by repeat constructor.
  assert (Hrun : run (fst (ente_tcp_ssthresh (host 30 TCP_INFINITE_SSTHRESH 10) jittery)) es
                 = Some c) by (vm_compute; reflexivity).
  destruct (undo_restores_loss_window (host 30 TCP_INFINITE_SSTHRESH 10)
              (host 12 TCP_INFINITE_SSTHRESH 10) jittery c es Hes Hrun) as [Hret _].
  rewrite Hret. vm_compute. reflexivity.
Defined.
